(** * DraftEditor.react: mode dispatch, drag tracking, clipboard staging,
      focus and DOM recovery

    A shallow embedding of the [DraftEditor] component class of
    [src/component/base/DraftEditor.react.js].  The instance fields of the
    component, its React state, the props it reads and the part of the DOM
    it touches are gathered in a [World]; every method is a computation in a
    small state-and-exception monad [Js] over that world.

    Three methods reach the platform: [_focus] and [_blur] ask the browser
    for a focus change, [_restoreEditorDOM] asks React for a state update.
    Over a [World] these requests are taken by themselves.  How the
    browser and React answer them (the focus event delivered inside the
    request, updates queued during a batch, a component that is not
    mounted) is the subject of [Page], further down, where the three
    methods are run again with the platform's answer.

    JavaScript numbers are IEEE doubles.  The two counters of the class
    ([_dragCount], [state.containerKey]) start at [0] and only ever move by
    [+1] or [-1]; on such values double arithmetic is exact up to [2^53], a
    bound no run of the component reaches, so they are modelled in [Z].
    Scroll offsets are modelled in [Z] as well. *)

From Stdlib Require Import ZArith List String Ascii Bool Lia.
From Stdlib Require Import DecimalString DecimalZ.
Import ListNotations.

#[local] Open Scope string_scope.
#[local] Open Scope list_scope.
#[local] Open Scope Z_scope.

(** ** Values *)

(** A value of a Flow "maybe" type [?T]: [undefined], [null] or a [T]. *)
Inductive Maybe (T : Type) : Type :=
| undefined
| null
| value (t : T).

Arguments undefined {T}.
Arguments null {T}.
Arguments value {T} t.

(** The three handler modules required at the top of the file. *)
Inductive HandlerModule : Type :=
| DraftEditorEditHandler
| DraftEditorCompositionHandler
| DraftEditorDragHandler.

(** The objects a lookup [handlerMap[mode]] can produce: one of the handler
    modules, or, since [handlerMap] is an object literal, a member it
    inherits from [Object.prototype]. *)
Inductive HandlerObject : Type :=
| handler_module (h : HandlerModule)
| prototype_member (name : string).

(** The event names passed to [_buildHandler] in the constructor. *)
Inductive EventName : Type :=
| onBeforeInput | onBlur | onCharacterData | onCompositionEnd
| onCompositionStart | onCopy | onCut | onDragEnd | onDragOver
| onDragStart | onDrop | onInput | onFocus | onKeyDown | onKeyPress
| onKeyUp | onMouseDown | onMouseUp | onPaste | onSelect.

(** [DraftScrollPosition]: [{x, y}]. *)
Record DraftScrollPosition : Type := { x : Z; y : Z }.

(** The part of the document that [_focus], [_blur] and a remount act on:
    whether [Style.getScrollParent(editorNode)] is [window], the scroll
    offset of that scroll parent, and whether the editor node holds the
    DOM focus. *)
Record Dom : Type := {
  scrollParentIsWindow : bool;
  scrollOffset : DraftScrollPosition;
  editorNodeFocused : bool
}.

(** The offset [_focus] puts back: the [scrollPosition] it was given, or
    else the offset of the scroll parent read before the focus request. *)
Definition resolved_offset (scrollPosition : option DraftScrollPosition)
    (before : Dom) : DraftScrollPosition :=
  match scrollPosition with
  | Some given => given
  | None => scrollOffset before
  end.

(** ** Collaborators

    Modules the class requires but does not define, and the behaviour of
    the browser and of React that it relies on. *)
Class Collaborators : Type := {
  BlockMap : Type;
  EditorState : Type;
  SelectionState : Type;
  SyntheticEvent : Type;
  (** [editorState.getSelection()] *)
  getSelection : EditorState -> SelectionState;
  (** [selection.getHasFocus()] *)
  getHasFocus : SelectionState -> bool;
  (** [EditorState.forceSelection(editorState, selection)] *)
  forceSelection : EditorState -> SelectionState -> EditorState;
  (** [UserAgent.isBrowser('IE')] *)
  isIE : bool;
  (** the offset the scroll parent is left at by the browser when the
      editor node is given the focus (implicit scroll into view) *)
  scrollOnFocus : Dom -> DraftScrollPosition;
  (** the document after React has discarded and rebuilt the subtree keyed
      by ['editor' + containerKey] *)
  remount : Dom -> Dom
}.

Section World.

Context `{C : Collaborators}.

(** ** The component *)

(** [type State = {containerKey: number}] *)
Record State : Type := { containerKey : Z }.

(** The instance fields declared and initialised by the class, and its
    React state. *)
Record DraftEditor : Type := {
  _blockSelectEvents : bool;
  _clipboard : Maybe BlockMap;
  _guardAgainstRender : bool;
  _handler : Maybe HandlerObject;
  _dragCount : Z;
  state : State
}.

(** The props read by the methods modelled here. *)
Record DraftEditorProps : Type := {
  readOnly : bool;
  editorState : EditorState
}.

(** Invocations recorded in the trace of a run: the methods of the class
    that are called from inside the class, and the calls that leave it
    ([props.onChange], [document.execCommand]). *)
Inductive Call : Type :=
| call_setMode (mode : string)
| call_exitCurrentMode
| call_focus (scrollPosition : option DraftScrollPosition)
| call_update (es : EditorState)
| call_onChange (es : EditorState)
| call_execCommand (command : string).

Record World : Type := {
  this : DraftEditor;
  props : DraftEditorProps;
  dom : Dom;
  calls : list Call
}.

(** ** The monad: state passing over [World], with JavaScript exceptions *)

Inductive Completion (A : Type) : Type :=
| Normal (a : A) (w : World)
| Throw (exn : string) (w : World).

Arguments Normal {A} a w.
Arguments Throw {A} exn w.

Definition Js (A : Type) : Type := World -> Completion A.

Definition ret {A : Type} (a : A) : Js A := fun w => Normal a w.

Definition bind {A B : Type} (m : Js A) (k : A -> Js B) : Js B :=
  fun w =>
    match m w with
    | Normal a w' => k a w'
    | Throw exn w' => Throw exn w'
    end.

(** The world a computation ends in. *)
Definition world_of {A : Type} (r : Completion A) : World :=
  match r with
  | Normal _ w => w
  | Throw _ w => w
  end.

Definition read {A : Type} (f : World -> A) : Js A := fun w => Normal (f w) w.

Definition write (f : World -> World) : Js unit := fun w => Normal tt (f w).

(** Field assignments [this.f = v], [this.state = s] and writes to the
    document. *)
Definition with_this (f : DraftEditor -> DraftEditor) (w : World) : World :=
  {| this := f (this w); props := props w; dom := dom w; calls := calls w |}.

Definition with_dom (f : Dom -> Dom) (w : World) : World :=
  {| this := this w; props := props w; dom := f (dom w); calls := calls w |}.

Definition with_call (c : Call) (w : World) : World :=
  {| this := this w; props := props w; dom := dom w;
     calls := calls w ++ [c] |}.

Definition set_blockSelectEvents (b : bool) (d : DraftEditor) : DraftEditor :=
  {| _blockSelectEvents := b; _clipboard := _clipboard d;
     _guardAgainstRender := _guardAgainstRender d; _handler := _handler d;
     _dragCount := _dragCount d; state := state d |}.

Definition set_clipboard (c : Maybe BlockMap) (d : DraftEditor)
  : DraftEditor :=
  {| _blockSelectEvents := _blockSelectEvents d; _clipboard := c;
     _guardAgainstRender := _guardAgainstRender d; _handler := _handler d;
     _dragCount := _dragCount d; state := state d |}.

Definition set_guardAgainstRender (b : bool) (d : DraftEditor)
  : DraftEditor :=
  {| _blockSelectEvents := _blockSelectEvents d; _clipboard := _clipboard d;
     _guardAgainstRender := b; _handler := _handler d;
     _dragCount := _dragCount d; state := state d |}.

Definition set_handler (h : Maybe HandlerObject) (d : DraftEditor)
  : DraftEditor :=
  {| _blockSelectEvents := _blockSelectEvents d; _clipboard := _clipboard d;
     _guardAgainstRender := _guardAgainstRender d; _handler := h;
     _dragCount := _dragCount d; state := state d |}.

Definition set_dragCount (n : Z) (d : DraftEditor) : DraftEditor :=
  {| _blockSelectEvents := _blockSelectEvents d; _clipboard := _clipboard d;
     _guardAgainstRender := _guardAgainstRender d; _handler := _handler d;
     _dragCount := n; state := state d |}.

Definition set_state (s : State) (d : DraftEditor) : DraftEditor :=
  {| _blockSelectEvents := _blockSelectEvents d; _clipboard := _clipboard d;
     _guardAgainstRender := _guardAgainstRender d; _handler := _handler d;
     _dragCount := _dragCount d; state := s |}.

(** Entering a recorded method. *)
Definition called (c : Call) : Js unit := write (with_call c).

End World.

Arguments Normal {C A} a w.
Arguments Throw {C A} exn w.

Notation "v <- m ;; k" := (bind m (fun v => k))
  (at level 61, m at next level, right associativity).
Notation "m ;; k" := (bind m (fun _ => k))
  (at level 61, right associativity).

(** ** Handler modules

    A handler operation is a JavaScript function: it runs with a receiver
    ([this]) and the event, may change the world in any way (handlers call
    back into the editor) and may throw. *)
Inductive Receiver : Type :=
| the_editor
| the_handler (h : HandlerModule).

Definition Method `{C : Collaborators} : Type :=
  Receiver -> SyntheticEvent -> Js unit.

(** [member h eventName] is the result of the property lookup
    [h[eventName]] on a handler module: an operation, or nothing when the
    module does not define one of that name. *)
Class Handlers `{C : Collaborators} : Type := {
  member : HandlerModule -> EventName -> option Method
}.

Section Component.

Context `{C : Collaborators} `{H : @Handlers C}.

(** The names every object literal inherits from [Object.prototype]. *)
Definition Object_prototype : list string :=
  [ "constructor"; "hasOwnProperty"; "isPrototypeOf";
    "propertyIsEnumerable"; "toLocaleString"; "toString"; "valueOf";
    "__proto__"; "__defineGetter__"; "__defineSetter__";
    "__lookupGetter__"; "__lookupSetter__" ].

(** [handlerMap[mode]]: the five own properties of the literal, then the
    prototype, else [undefined]. *)
Definition handlerMap (mode : string) : Maybe HandlerObject :=
  if String.eqb mode "edit" then
    value (handler_module DraftEditorEditHandler)
  else if String.eqb mode "composite" then
    value (handler_module DraftEditorCompositionHandler)
  else if String.eqb mode "drag" then
    value (handler_module DraftEditorDragHandler)
  else if String.eqb mode "cut" then null
  else if String.eqb mode "render" then null
  else if existsb (String.eqb mode) Object_prototype then
    value (prototype_member mode)
  else undefined.

(** [o[eventName]] on an object held in [_handler].  None of the members
    of [Object.prototype] has a property named after an event. *)
Definition get_member (o : HandlerObject) (eventName : EventName)
  : option Method :=
  match o with
  | handler_module h => member h eventName
  | prototype_member _ => None
  end.

(** The state the constructor leaves the instance in. *)
Definition DraftEditor_constructor (p : DraftEditorProps) (d : Dom) : World :=
  {| this := {| _blockSelectEvents := false;
                _clipboard := null;
                _guardAgainstRender := false;
                _handler := null;
                _dragCount := 0;
                state := {| containerKey := 0 |} |};
     props := p;
     dom := d;
     calls := [] |}.

(** [_buildHandler(eventName)] returns the callback [(e) => ...]. *)
Definition _buildHandler (eventName : EventName) : SyntheticEvent -> Js unit :=
  fun e =>
    p <- read props ;;
    if negb (readOnly p) then
      h <- read (fun w => _handler (this w)) ;;
      (* this._handler && this._handler[eventName] *)
      let method :=
        match h with
        | value o => get_member o eventName
        | _ => None
        end in
      (* method && method.call(this, e) *)
      match method with
      | Some f => f the_editor e
      | None => ret tt
      end
    else ret tt.

Definition _setMode (mode : string) : Js unit :=
  called (call_setMode mode) ;;
  write (with_this (set_handler (handlerMap mode))).

Definition _exitCurrentMode : Js unit :=
  called call_exitCurrentMode ;;
  _setMode "edit".

Definition componentDidMount : Js unit :=
  _setMode "edit" ;;
  if isIE then called (call_execCommand "AutoUrlDetect") else ret tt.

Definition componentWillUpdate : Js unit :=
  write (with_this (set_blockSelectEvents true)).

Definition componentDidUpdate : Js unit :=
  write (with_this (set_blockSelectEvents false)).

(** [this.props.onChange(editorState)]: the host's callback. *)
Definition onChange (es : EditorState) : Js unit :=
  called (call_onChange es).

Definition _update (es : EditorState) : Js unit :=
  called (call_update es) ;;
  onChange es.

(** The DOM calls made by [_focus] and [_blur], for what they do to the
    document: a focus request gives the node the focus and lets the
    browser scroll it into view.  The focus and blur events, which the
    browser delivers to the component's listeners before the request
    returns, are added in [Page]. *)
Definition getScrollPosition (d : Dom) : DraftScrollPosition :=
  scrollOffset d.

Definition editorNode_focus : Js unit :=
  write (with_dom (fun d =>
    {| scrollParentIsWindow := scrollParentIsWindow d;
       scrollOffset := scrollOnFocus d;
       editorNodeFocused := true |})).

Definition editorNode_blur : Js unit :=
  write (with_dom (fun d =>
    {| scrollParentIsWindow := scrollParentIsWindow d;
       scrollOffset := scrollOffset d;
       editorNodeFocused := false |})).

Definition window_scrollTo (left top : Z) : Js unit :=
  write (with_dom (fun d =>
    {| scrollParentIsWindow := scrollParentIsWindow d;
       scrollOffset := {| x := left; y := top |};
       editorNodeFocused := editorNodeFocused d |})).

Definition Scroll_setTop (top : Z) : Js unit :=
  write (with_dom (fun d =>
    {| scrollParentIsWindow := scrollParentIsWindow d;
       scrollOffset := {| x := x (scrollOffset d); y := top |};
       editorNodeFocused := editorNodeFocused d |})).

Definition _focus (scrollPosition : option DraftScrollPosition) : Js unit :=
  called (call_focus scrollPosition) ;;
  es <- read (fun w => editorState (props w)) ;;
  let alreadyHasFocus := getHasFocus (getSelection es) in
  scrollParent_is_window <- read (fun w => scrollParentIsWindow (dom w)) ;;
  (* const {x, y} = scrollPosition || getScrollPosition(scrollParent) *)
  target <- match scrollPosition with
            | Some given => ret given
            | None => read (fun w => getScrollPosition (dom w))
            end ;;
  editorNode_focus ;;
  (if scrollParent_is_window then window_scrollTo (x target) (y target)
   else Scroll_setTop (y target)) ;;
  if negb alreadyHasFocus then
    _update (forceSelection es (getSelection es))
  else ret tt.

Definition _blur : Js unit := editorNode_blur.

(** [this.setState(partial, callback)].  React calls [componentWillUpdate],
    installs the new state, re-renders and commits (a changed key discards
    and rebuilds the keyed subtree), calls [componentDidUpdate] and then
    the callback.  Here the update is applied within the call, as React
    does for a [setState] made on a mounted component outside a batch;
    batches and components that are not mounted are in [Page]. *)
Definition setState (partial : State) (callback : Js unit) : Js unit :=
  componentWillUpdate ;;
  previous <- read (fun w => state (this w)) ;;
  write (with_this (set_state partial)) ;;
  (if containerKey previous =? containerKey partial then ret tt
   else write (with_dom remount)) ;;
  componentDidUpdate ;;
  callback.

Definition _restoreEditorDOM (scrollPosition : option DraftScrollPosition)
  : Js unit :=
  key <- read (fun w => containerKey (state (this w))) ;;
  setState {| containerKey := key + 1 |} (_focus scrollPosition).

Definition _setRenderGuard : Js unit :=
  write (with_this (set_guardAgainstRender true)).

Definition _removeRenderGuard : Js unit :=
  write (with_this (set_guardAgainstRender false)).

Definition _setClipboard (clipboard : Maybe BlockMap) : Js unit :=
  write (with_this (set_clipboard clipboard)).

Definition _getClipboard : Js (Maybe BlockMap) :=
  read (fun w => _clipboard (this w)).

Definition _onDragEnter : Js unit :=
  write (with_this (fun d => set_dragCount (_dragCount d + 1) d)).

Definition _onDragLeave : Js unit :=
  write (with_this (fun d => set_dragCount (_dragCount d - 1) d)) ;;
  count <- read (fun w => _dragCount (this w)) ;;
  if count =? 0 then _exitCurrentMode else ret tt.

End Component.

(** ** Runs of the component *)

(** A call to [onDragEnter] or to [onDragLeave]. *)
Inductive DragCall : Type :=
| DragEnter
| DragLeave.

(** A call to [setMode(mode)] or to [exitCurrentMode()]. *)
Inductive ModeCall : Type :=
| setMode_call (mode : string)
| exitCurrentMode_call.

Section Runs.

Context `{C : Collaborators} `{H : @Handlers C}.

Definition drag (c : DragCall) : Js unit :=
  match c with
  | DragEnter => _onDragEnter
  | DragLeave => _onDragLeave
  end.

Fixpoint drags (t : list DragCall) : Js unit :=
  match t with
  | [] => ret tt
  | c :: t' => drag c ;; drags t'
  end.

(** The value of [_dragCount] after each call of a run. *)
Fixpoint drag_counts (t : list DragCall) (w : World) : list Z :=
  match t with
  | [] => []
  | c :: t' =>
      match drag c w with
      | Normal _ w' => _dragCount (this w') :: drag_counts t' w'
      | Throw _ _ => []
      end
  end.

Definition mode_call (c : ModeCall) : Js unit :=
  match c with
  | setMode_call mode => _setMode mode
  | exitCurrentMode_call => _exitCurrentMode
  end.

Fixpoint mode_calls (l : list ModeCall) : Js unit :=
  match l with
  | [] => ret tt
  | c :: l' => mode_call c ;; mode_calls l'
  end.

(** The operations of the component other than the event callbacks. *)
Inductive Operation : Type :=
| op_focus (scrollPosition : option DraftScrollPosition)
| op_blur
| op_setMode (mode : string)
| op_exitCurrentMode
| op_restoreEditorDOM (scrollPosition : option DraftScrollPosition)
| op_setRenderGuard
| op_removeRenderGuard
| op_setClipboard (clipboard : Maybe BlockMap)
| op_getClipboard
| op_update (es : EditorState)
| op_onDragEnter
| op_onDragLeave
| op_componentDidMount
| op_componentWillUpdate
| op_componentDidUpdate.

Definition perform (o : Operation) : Js unit :=
  match o with
  | op_focus scrollPosition => _focus scrollPosition
  | op_blur => _blur
  | op_setMode mode => _setMode mode
  | op_exitCurrentMode => _exitCurrentMode
  | op_restoreEditorDOM scrollPosition => _restoreEditorDOM scrollPosition
  | op_setRenderGuard => _setRenderGuard
  | op_removeRenderGuard => _removeRenderGuard
  | op_setClipboard clipboard => _setClipboard clipboard
  | op_getClipboard => _getClipboard ;; ret tt
  | op_update es => _update es
  | op_onDragEnter => _onDragEnter
  | op_onDragLeave => _onDragLeave
  | op_componentDidMount => componentDidMount
  | op_componentWillUpdate => componentWillUpdate
  | op_componentDidUpdate => componentDidUpdate
  end.

Fixpoint perform_all (os : list Operation) : Js unit :=
  match os with
  | [] => ret tt
  | o :: os' => perform o ;; perform_all os'
  end.

Definition is_restoreEditorDOM (o : Operation) : bool :=
  match o with
  | op_restoreEditorDOM _ => true
  | _ => false
  end.

(** Reading the trace. *)
Definition is_exitCurrentMode (c : Call) : bool :=
  match c with
  | call_exitCurrentMode => true
  | _ => false
  end.

Definition exit_count (l : list Call) : nat :=
  List.length (filter is_exitCurrentMode l).

Definition update_calls (l : list Call) : list EditorState :=
  flat_map (fun c => match c with
                     | call_update es => [es]
                     | _ => []
                     end) l.

(** The mode a call makes current. *)
Definition mode_set_by (c : ModeCall) : string :=
  match c with
  | setMode_call mode => mode
  | exitCurrentMode_call => "edit"
  end.

End Runs.

(** The closed set of [DraftEditorModes]. *)
Definition DraftEditorModes : list string :=
  [ "edit"; "composite"; "drag"; "cut"; "render" ].

(** ** Vocabulary of the drag-tracking properties

    These definitions do not mention the component: they describe a
    sequence of enter and leave calls on its own. *)

Definition delta (c : DragCall) : Z :=
  match c with
  | DragEnter => 1
  | DragLeave => -1
  end.

(** Enters minus leaves. *)
Fixpoint net (t : list DragCall) : Z :=
  match t with
  | [] => 0
  | c :: t' => delta c + net t'
  end.

(** Every leave is matched by an earlier enter that no other leave has
    taken: [depth] enters are open when the scan starts. *)
Fixpoint well_nested_at (depth : nat) (t : list DragCall) : bool :=
  match t with
  | [] => true
  | DragEnter :: t' => well_nested_at (S depth) t'
  | DragLeave :: t' =>
      match depth with
      | O => false
      | S depth' => well_nested_at depth' t'
      end
  end.

Definition well_nested (t : list DragCall) : bool := well_nested_at 0 t.

(** Balanced sequences of enters and leaves. *)
Inductive balanced : list DragCall -> Prop :=
| balanced_nil : balanced []
| balanced_nest (u : list DragCall) :
    balanced u -> balanced (DragEnter :: u ++ [DragLeave])
| balanced_seq (u v : list DragCall) :
    balanced u -> balanced v -> balanced (u ++ v).

(** A balanced block: an enter, a balanced interior, and the leave that
    matches the enter and nets the block to zero. *)
Definition block (b : list DragCall) : Prop :=
  exists u, balanced u /\ b = DragEnter :: u ++ [DragLeave].

(** A sequence that ends with a balanced block begun at zero: what comes
    before the block has as many enters as leaves. *)
Definition completes_block (s : list DragCall) : Prop :=
  exists q b, s = q ++ b /\ net q = 0 /\ block b.

(** The number of balanced blocks of a sequence, found by matching each
    leave with the nearest open enter; a leave with no open enter belongs
    to no block. *)
Fixpoint balanced_blocks_at (depth : nat) (t : list DragCall) : nat :=
  match t with
  | [] => O
  | DragEnter :: t' => balanced_blocks_at (S depth) t'
  | DragLeave :: t' =>
      match depth with
      | O => balanced_blocks_at O t'
      | S O => S (balanced_blocks_at O t')
      | S depth' => balanced_blocks_at depth' t'
      end
  end.

Definition balanced_blocks (t : list DragCall) : nat :=
  balanced_blocks_at 0 t.

(** An unfinished tail: enters that no leave has matched yet, each
    followed by balanced material. *)
Inductive pending : list DragCall -> Prop :=
| pending_nil : pending []
| pending_enter (u r : list DragCall) :
    balanced u -> pending r -> pending (DragEnter :: u ++ r).

(** The sequence read so far when the enters still open have the given
    balanced material behind them, innermost first. *)
Fixpoint unwind (frames : list (list DragCall)) : list DragCall :=
  match frames with
  | [] => []
  | u :: frames' => unwind frames' ++ DragEnter :: u
  end.

(** The counter values met along a sequence started at [n]. *)
Fixpoint running (n : Z) (t : list DragCall) : list Z :=
  match t with
  | [] => []
  | c :: t' => (n + delta c) :: running (n + delta c) t'
  end.

(** A call reaches zero by leaving: it is a leave and the counter is [n],
    zero, after it. *)
Definition leaves_to_zero (c : DragCall) (n : Z) : bool :=
  match c with
  | DragEnter => false
  | DragLeave => n =? 0
  end.

(** The number of leaves of a sequence started at [n] that reach zero. *)
Fixpoint leave_zeros (n : Z) (t : list DragCall) : nat :=
  match t with
  | [] => O
  | c :: t' =>
      ((if leaves_to_zero c (n + delta c) then 1 else 0)
       + leave_zeros (n + delta c) t')%nat
  end.

(** The number of zeros in a list of counter values. *)
Definition zeros (l : list Z) : nat :=
  List.length (filter (fun n => n =? 0) l).

(** ** A concrete instance

    Collaborators and handler modules on which the general statements are
    exercised. *)

Definition sample_collaborators : Collaborators :=
  {| BlockMap := string;
     EditorState := bool * nat;
     SelectionState := bool;
     SyntheticEvent := string;
     getSelection := fst;
     getHasFocus := fun s => s;
     forceSelection := fun es s => (s, S (snd es));
     isIE := false;
     (* the browser brings the top of the editor into view *)
     scrollOnFocus := fun d => {| x := x (scrollOffset d); y := 0 |};
     remount := fun d =>
       {| scrollParentIsWindow := scrollParentIsWindow d;
          scrollOffset := scrollOffset d;
          editorNodeFocused := false |} |}.

(** An edit handler that stages the event text on [onCopy] and throws on
    [onPaste], and a drag handler that leaves the drag mode on [onDrop];
    the composition handler defines no operation. *)
Definition sample_onCopy : @Method sample_collaborators :=
  fun _ (e : string) => @_setClipboard sample_collaborators (value e).

Definition sample_onPaste : @Method sample_collaborators :=
  fun _ _ w => Throw "paste failed" w.

Definition sample_onDrop : @Method sample_collaborators :=
  fun _ _ => @_exitCurrentMode sample_collaborators.

Definition sample_handlers : @Handlers sample_collaborators :=
  {| member := fun h eventName =>
       match h, eventName with
       | DraftEditorEditHandler, onCopy => Some sample_onCopy
       | DraftEditorEditHandler, onPaste => Some sample_onPaste
       | DraftEditorDragHandler, onDrop => Some sample_onDrop
       | _, _ => None
       end |}.

Definition sample_props (ro focused : bool)
  : @DraftEditorProps sample_collaborators :=
  @Build_DraftEditorProps sample_collaborators ro (focused, O).

Definition sample_dom (is_window : bool) (left top : Z) : Dom :=
  {| scrollParentIsWindow := is_window;
     scrollOffset := {| x := left; y := top |};
     editorNodeFocused := false |}.

(** An event, identified by a text. *)
Definition sample_event (text : string)
  : @SyntheticEvent sample_collaborators := text.

(** A freshly constructed editor: editable, selection without focus,
    scroll parent an element at offset [(5, 10)]. *)
Definition sample_world : @World sample_collaborators :=
  @DraftEditor_constructor sample_collaborators
    (sample_props false false) (sample_dom false 5 10).

(** The same editor once mounted (mode ['edit']), and in mode ['drag']. *)
Definition sample_mounted : @World sample_collaborators :=
  world_of (@componentDidMount sample_collaborators sample_world).

Definition sample_dragging : @World sample_collaborators :=
  world_of (@_setMode sample_collaborators "drag" sample_mounted).

(** A mounted editor whose scroll parent is the window, at [(3, 40)]. *)
Definition sample_in_window : @World sample_collaborators :=
  world_of (@componentDidMount sample_collaborators
              (@DraftEditor_constructor sample_collaborators
                 (sample_props false false) (sample_dom true 3 40))).

(** A mounted read-only editor. *)
Definition sample_readOnly : @World sample_collaborators :=
  world_of (@componentDidMount sample_collaborators
              (@DraftEditor_constructor sample_collaborators
                 (sample_props true false) (sample_dom true 0 0))).

(** * Rendering and the rest of the class

    The part of the class the statements above do not reach: [render] and
    [_renderPlaceholder], the listeners [render] attaches, and
    [defaultProps]. *)

(** JavaScript truthiness of a maybe-string: the empty string is falsy. *)
Definition truthy (v : Maybe string) : bool :=
  match v with
  | value s => negb (String.eqb s "")
  | _ => false
  end.

(** [v === 'literal'] for a maybe-string [v]. *)
Definition strict_equal (v : Maybe string) (literal : string) : bool :=
  match v with
  | value s => String.eqb s literal
  | _ => false
  end.

(** [String(n)] for an integer-valued number, as in ['editor' + n]. *)
Definition Number_toString (n : Z) : string :=
  NilZero.string_of_int (Z.to_int n).

(** [cx({name: flag, ...})] and [cx(name)]: the names whose flag holds, in
    order, each with its slashes turned into dashes, joined by spaces. *)
Fixpoint replace_slashes (name : string) : string :=
  match name with
  | EmptyString => EmptyString
  | String c rest =>
      String (if Ascii.eqb c "/"%char then "-"%char else c)
        (replace_slashes rest)
  end.

Definition cx (flags : list (string * bool)) : string :=
  String.concat " " (map replace_slashes (map fst (filter snd flags))).

(** The DOM event attributes [render] sets on the content [div]. *)
Module Attr.

Inductive t : Type :=
| onBeforeInput | onBlur | onCompositionEnd | onCompositionStart
| onCopy | onCut | onDragEnd | onDragEnter | onDragLeave | onDragOver
| onDragStart | onDrop | onFocus | onInput | onKeyDown | onKeyPress
| onKeyUp | onMouseUp | onPaste | onSelect.

End Attr.

(** What [render] needs besides the collaborators of the methods. *)
Class Rendering `{C : Collaborators} : Type := {
  (** values of the props handed on to the DOM unchanged *)
  Attribute : Type;
  BlockRendererFn : Type;
  BlockStyleFn : Type;
  InlineStyle : Type;
  (** [emptyFunction.thatReturnsNull], [emptyFunction.thatReturns('')] *)
  thatReturnsNull : BlockRendererFn;
  thatReturnsEmptyString : BlockStyleFn;
  (** the object [DefaultDraftInlineStyle], as a map from style names *)
  DefaultDraftInlineStyle : string -> option InlineStyle;
  (** [editorState.getCurrentContent().hasText()] *)
  hasText : EditorState -> bool;
  (** [editorState.isInCompositionMode()] *)
  isInCompositionMode : EditorState -> bool
}.

Section Render.

Context `{C : Collaborators} `{H : @Handlers C} `{R : @Rendering C}.

(** The props [render] reads besides [readOnly] and [editorState]. *)
Record RenderProps : Type := {
  placeholder : Maybe string;
  textAlignment : Maybe string;
  ariaActiveDescendantID : Maybe Attribute;
  ariaAutoComplete : Maybe Attribute;
  ariaDescribedBy : Maybe Attribute;
  ariaExpanded : Maybe Attribute;
  ariaHasPopup : Maybe Attribute;
  ariaLabel : Maybe Attribute;
  ariaOwneeID : Maybe Attribute;
  webDriverTestID : Maybe Attribute;
  role : Maybe string;
  spellCheck : bool;
  tabIndex : Maybe Attribute;
  blockRendererFn : Maybe BlockRendererFn;
  blockStyleFn : Maybe BlockStyleFn;
  customStyleMap : Maybe (string -> option InlineStyle)
}.

(** [static defaultProps], for the two function props [render] uses:
    React gives a prop its default when it is [undefined], and only
    then. *)
Definition or_default {T : Type} (given : Maybe T) (default : T) : Maybe T :=
  match given with
  | undefined => value default
  | _ => given
  end.

Definition with_defaultProps (given : RenderProps) : RenderProps :=
  {| placeholder := placeholder given;
     textAlignment := textAlignment given;
     ariaActiveDescendantID := ariaActiveDescendantID given;
     ariaAutoComplete := ariaAutoComplete given;
     ariaDescribedBy := ariaDescribedBy given;
     ariaExpanded := ariaExpanded given;
     ariaHasPopup := ariaHasPopup given;
     ariaLabel := ariaLabel given;
     ariaOwneeID := ariaOwneeID given;
     webDriverTestID := webDriverTestID given;
     role := role given;
     spellCheck := spellCheck given;
     tabIndex := tabIndex given;
     blockRendererFn := or_default (blockRendererFn given) thatReturnsNull;
     blockStyleFn := or_default (blockStyleFn given) thatReturnsEmptyString;
     customStyleMap := customStyleMap given |}.

(** The elements [render] returns. *)
Record DraftEditorPlaceholder : Type := {
  placeholder_text : string;
  placeholder_editorState : EditorState;
  placeholder_textAlignment : Maybe string
}.

Record DraftEditorContents : Type := {
  contents_blockRendererFn : BlockRendererFn;
  contents_blockStyleFn : BlockStyleFn;
  contents_customStyleMap : string -> option InlineStyle;
  contents_editorState : EditorState
}.

Record ContentDiv : Type := {
  aria_activedescendant : Maybe Attribute;
  aria_autocomplete : Maybe Attribute;
  aria_describedby : Maybe Attribute;
  aria_expanded : Maybe Attribute;
  aria_haspopup : Maybe Attribute;
  aria_label : Maybe Attribute;
  aria_owns : Maybe Attribute;
  content_className : string;
  contentEditable : bool;
  data_testid : Maybe Attribute;
  listeners : Attr.t -> SyntheticEvent -> Js unit;
  content_ref : string;
  role_attribute : Maybe string;
  spellCheck_attribute : bool;
  style : list (string * string);
  tabIndex_attribute : Maybe Attribute;
  title : Maybe string;
  contents : DraftEditorContents
}.

Record RootDiv : Type := {
  root_className : string;
  root_placeholder : option DraftEditorPlaceholder;
  container_className : string;
  container_key : string;
  container_ref : string;
  content : ContentDiv
}.

Definition throw {A : Type} (exn : string) : Js A := fun w => Throw exn w.

(** [nullthrows(x)] *)
Definition nullthrows {T : Type} (v : Maybe T) : Js T :=
  match v with
  | value t => ret t
  | _ => throw "Got unexpected null or undefined"
  end.

(** [{...DefaultDraftInlineStyle, ...this.props.customStyleMap}]: the
    entries of the second object win; spreading [null] or [undefined]
    adds nothing. *)
Definition spread_styles (custom : Maybe (string -> option InlineStyle))
  : string -> option InlineStyle :=
  fun name =>
    match custom with
    | value m =>
        match m name with
        | Some s => Some s
        | None => DefaultDraftInlineStyle name
        end
    | _ => DefaultDraftInlineStyle name
    end.

(** The callbacks [render] attaches: the fields [_onBeforeInput], ...
    built by [_buildHandler] in the constructor, and for the two drag
    attributes the bound methods [onDragEnter] and [onDragLeave], which
    take no argument. *)
Definition listener (a : Attr.t) : SyntheticEvent -> Js unit :=
  match a with
  | Attr.onBeforeInput => _buildHandler onBeforeInput
  | Attr.onBlur => _buildHandler onBlur
  | Attr.onCompositionEnd => _buildHandler onCompositionEnd
  | Attr.onCompositionStart => _buildHandler onCompositionStart
  | Attr.onCopy => _buildHandler onCopy
  | Attr.onCut => _buildHandler onCut
  | Attr.onDragEnd => _buildHandler onDragEnd
  | Attr.onDragEnter => fun _ => _onDragEnter
  | Attr.onDragLeave => fun _ => _onDragLeave
  | Attr.onDragOver => _buildHandler onDragOver
  | Attr.onDragStart => _buildHandler onDragStart
  | Attr.onDrop => _buildHandler onDrop
  | Attr.onFocus => _buildHandler onFocus
  | Attr.onInput => _buildHandler onInput
  | Attr.onKeyDown => _buildHandler onKeyDown
  | Attr.onKeyPress => _buildHandler onKeyPress
  | Attr.onKeyUp => _buildHandler onKeyUp
  | Attr.onMouseUp => _buildHandler onMouseUp
  | Attr.onPaste => _buildHandler onPaste
  | Attr.onSelect => _buildHandler onSelect
  end.

Definition _renderPlaceholder (rp : RenderProps)
  : Js (option DraftEditorPlaceholder) :=
  es <- read (fun w => editorState (props w)) ;;
  let showPlaceholder :=
    truthy (placeholder rp)
    && negb (isInCompositionMode es)
    && negb (hasText es) in
  if showPlaceholder then
    text <- nullthrows (placeholder rp) ;;
    ret (Some {| placeholder_text := text;
                 placeholder_editorState := es;
                 placeholder_textAlignment := textAlignment rp |})
  else ret None.

Definition render (rp : RenderProps) : Js RootDiv :=
  p <- read props ;;
  let rootClass :=
    cx [ ("DraftEditor/root", true);
         ("DraftEditor/alignLeft", strict_equal (textAlignment rp) "left");
         ("DraftEditor/alignRight", strict_equal (textAlignment rp) "right");
         ("DraftEditor/alignCenter",
          strict_equal (textAlignment rp) "center") ] in
  let hasContent := hasText (editorState p) in
  rendered_placeholder <- _renderPlaceholder rp ;;
  key <- read (fun w => containerKey (state (this w))) ;;
  renderer <- nullthrows (blockRendererFn rp) ;;
  styler <- nullthrows (blockStyleFn rp) ;;
  ret {| root_className := rootClass;
         root_placeholder := rendered_placeholder;
         container_className := cx [("DraftEditor/editorContainer", true)];
         container_key := ("editor" ++ Number_toString key)%string;
         container_ref := "editorContainer";
         content :=
           {| aria_activedescendant :=
                if readOnly p then null else ariaActiveDescendantID rp;
              aria_autocomplete :=
                if readOnly p then null else ariaAutoComplete rp;
              aria_describedby := ariaDescribedBy rp;
              aria_expanded :=
                if readOnly p then null else ariaExpanded rp;
              aria_haspopup :=
                if readOnly p then null else ariaHasPopup rp;
              aria_label := ariaLabel rp;
              aria_owns := if readOnly p then null else ariaOwneeID rp;
              content_className := cx [("public/DraftEditor/content", true)];
              contentEditable := negb (readOnly p);
              data_testid := webDriverTestID rp;
              listeners := listener;
              content_ref := "editor";
              role_attribute :=
                if readOnly p then null
                else if truthy (role rp) then role rp
                     else value "textbox";
              (* allowSpellCheck && this.props.spellCheck *)
              spellCheck_attribute := negb isIE && spellCheck rp;
              style := [("outline", "none"); ("whiteSpace", "pre-wrap")];
              tabIndex_attribute := tabIndex rp;
              title := if hasContent then null else placeholder rp;
              contents :=
                {| contents_blockRendererFn := renderer;
                   contents_blockStyleFn := styler;
                   contents_customStyleMap :=
                     spread_styles (customStyleMap rp);
                   contents_editorState := editorState p |} |} |}.

End Render.

(** ** Reading a sequence of operations

    What a sequence of operations asks for, field by field; none of these
    definitions runs the component. *)

Section Reading.

Context `{C : Collaborators} `{H : @Handlers C}.

(** The payload staged once [o] is done, [staged] being staged before. *)
Definition clipboard_step (o : Operation) (staged : Maybe BlockMap)
  : Maybe BlockMap :=
  match o with
  | op_setClipboard clipboard => clipboard
  | _ => staged
  end.

Fixpoint clipboard_after (staged : Maybe BlockMap) (os : list Operation)
  : Maybe BlockMap :=
  match os with
  | [] => staged
  | o :: os' => clipboard_after (clipboard_step o staged) os'
  end.

Definition guard_step (o : Operation) (guard : bool) : bool :=
  match o with
  | op_setRenderGuard => true
  | op_removeRenderGuard => false
  | _ => guard
  end.

Fixpoint guard_after (guard : bool) (os : list Operation) : bool :=
  match os with
  | [] => guard
  | o :: os' => guard_after (guard_step o guard) os'
  end.

(** An update cycle opens with [componentWillUpdate] and closes with
    [componentDidUpdate]; [restoreEditorDOM] goes through a whole cycle. *)
Definition blocked_step (o : Operation) (blocked : bool) : bool :=
  match o with
  | op_componentWillUpdate => true
  | op_componentDidUpdate => false
  | op_restoreEditorDOM _ => false
  | _ => blocked
  end.

Fixpoint blocked_after (blocked : bool) (os : list Operation) : bool :=
  match os with
  | [] => blocked
  | o :: os' => blocked_after (blocked_step o blocked) os'
  end.

(** Enters minus leaves among the operations. *)
Definition drag_delta (o : Operation) : Z :=
  match o with
  | op_onDragEnter => 1
  | op_onDragLeave => -1
  | _ => 0
  end.

Fixpoint drag_net (os : list Operation) : Z :=
  match os with
  | [] => 0
  | o :: os' => drag_delta o + drag_net os'
  end.

(** The editor states an operation hands to [update], [es] being the
    editor state in the props. *)
Definition updates_by (es : EditorState) (o : Operation)
  : list EditorState :=
  match o with
  | op_update given => [given]
  | op_focus _ | op_restoreEditorDOM _ =>
      if getHasFocus (getSelection es) then []
      else [forceSelection es (getSelection es)]
  | _ => []
  end.

Definition onChange_calls (l : list Call) : list EditorState :=
  flat_map (fun c => match c with
                     | call_onChange es => [es]
                     | _ => []
                     end) l.





Definition sets_blocked (o : Operation) : option bool :=
  match o with
  | op_componentWillUpdate => Some true
  | op_componentDidUpdate => Some false
  | op_restoreEditorDOM _ => Some false
  | _ => None
  end.

End Reading.

(** ** A concrete instance for rendering *)

Definition sample_rendering : @Rendering sample_collaborators :=
  {| Attribute := string;
     BlockRendererFn := string;
     BlockStyleFn := string;
     InlineStyle := string;
     thatReturnsNull := "thatReturnsNull";
     thatReturnsEmptyString := "thatReturnsEmptyString";
     DefaultDraftInlineStyle := fun name =>
       if String.eqb name "BOLD" then Some "fontWeight: bold" else None;
     (* the second component of a sample editor state counts forced
        selections; the sample content is empty *)
     hasText := fun _ => false;
     isInCompositionMode := fun _ => false |}.

(** Props as a host passes them: a placeholder, nothing else. *)
Definition sample_renderProps
  : @RenderProps sample_collaborators sample_rendering :=
  @Build_RenderProps sample_collaborators sample_rendering
    (value "Write something") undefined
    undefined undefined undefined undefined undefined undefined undefined
    undefined undefined false undefined undefined undefined undefined.

(** The sample handlers with one more operation: an [onMouseDown] of the
    edit handler, which throws. *)
Definition sample_handlers_onMouseDown : @Handlers sample_collaborators :=
  {| member := fun h eventName =>
       match h, eventName with
       | DraftEditorEditHandler, onMouseDown => Some sample_onPaste
       | _, _ => @member sample_collaborators sample_handlers h eventName
       end |}.

(** A payload and operations on the sample instance. *)
Definition sample_payload (text : string)
  : Maybe (@BlockMap sample_collaborators) := value text.


(** * The component inside React and the browser

    The methods above take a request to the platform by itself: what
    [editorNode.focus()] and [editorNode.blur()] do to the document, and a
    [setState] that React applies at once.  On a page the platform answers
    these requests.  The browser delivers the focus (blur) event inside
    the request, to the listener [render] attached to the very node the
    request is made on, so the active handler's [onFocus] ([onBlur])
    operation runs before [_focus] ([_blur]) goes on.  React applies a
    [setState] within the call only outside a batch; inside one (an event
    listener, a lifecycle hook, [batchedUpdates]) it queues the partial
    state and the callback, leaves [this.state] alone, and applies what
    was queued when the batch ends.  On a component it has not mounted
    React ignores [setState], and [this.refs.editor] is no DOM node.

    [Page] runs the class in that setting.  The methods that reach the
    platform are taken from the source again, over a state that adds
    React's queue to the world; the other methods are the ones above. *)

(** The events the browser delivers on a focus change of the editor
    node. *)
Class Events `{C : Collaborators} : Type := {
  focusEvent : SyntheticEvent;
  blurEvent : SyntheticEvent
}.

Module Page.

Section Definitions.

Context `{C : Collaborators} `{H : @Handlers C} `{E : @Events C}.

(** A [setState] call React has queued: the partial state, and the scroll
    position held by the callback.  The class calls [setState] in one
    place, with the callback [() => {this._focus(scrollPosition);}]. *)
Record Update : Type := {
  partialState : State;
  callback_scrollPosition : option DraftScrollPosition
}.

Record t : Type := {
  world : World;
  (** React has mounted the component: [this.refs.editor] is a DOM node *)
  mounted : bool;
  (** the editor node can take the focus (it is [contentEditable] or has
      a [tabIndex]) *)
  focusable : bool;
  (** React is inside a batch *)
  isBatchingUpdates : bool;
  (** the [setState] calls of the batch, oldest first *)
  pendingUpdates : list Update
}.

Definition with_world (f : World -> World) (p : t) : t :=
  {| world := f (world p); mounted := mounted p; focusable := focusable p;
     isBatchingUpdates := isBatchingUpdates p;
     pendingUpdates := pendingUpdates p |}.

Definition set_batching (b : bool) (p : t) : t :=
  {| world := world p; mounted := mounted p; focusable := focusable p;
     isBatchingUpdates := b; pendingUpdates := pendingUpdates p |}.

Definition set_pending (us : list Update) (p : t) : t :=
  {| world := world p; mounted := mounted p; focusable := focusable p;
     isBatchingUpdates := isBatchingUpdates p; pendingUpdates := us |}.

(** ** The monad over pages *)

Inductive Outcome (A : Type) : Type :=
| Returns (a : A) (p : t)
| Throws (exn : string) (p : t).

Arguments Returns {A} a p.
Arguments Throws {A} exn p.

Definition Rx (A : Type) : Type := t -> Outcome A.

Definition result {A : Type} (a : A) : Rx A := fun p => Returns a p.

Definition and_then {A B : Type} (m : Rx A) (k : A -> Rx B) : Rx B :=
  fun p =>
    match m p with
    | Returns a p' => k a p'
    | Throws exn p' => Throws exn p'
    end.

Definition page_of {A : Type} (r : Outcome A) : t :=
  match r with
  | Returns _ p => p
  | Throws _ p => p
  end.

Definition get {A : Type} (f : t -> A) : Rx A := fun p => Returns (f p) p.

Definition put (f : t -> t) : Rx unit := fun p => Returns tt (f p).

Definition raise {A : Type} (exn : string) : Rx A := fun p => Throws exn p.

(** A method of the class that reaches neither React nor the focus of the
    document runs on the world of the page. *)
Definition lift {A : Type} (m : Js A) : Rx A :=
  fun p =>
    match m (world p) with
    | Normal a w => Returns a (with_world (fun _ => w) p)
    | Throw exn w => Throws exn (with_world (fun _ => w) p)
    end.

End Definitions.

Arguments Returns {C A} a p.
Arguments Throws {C A} exn p.

Declare Scope page_scope.
Delimit Scope page_scope with page.
Bind Scope page_scope with Rx.

Notation "v <- m ;; k" := (and_then m (fun v => k))
  (at level 61, m at next level, right associativity) : page_scope.
Notation "m ;; k" := (and_then m (fun _ => k))
  (at level 61, right associativity) : page_scope.

Section Methods.

Context `{C : Collaborators} `{H : @Handlers C} `{E : @Events C}.

(** The browser hands an event to a listener of the component inside the
    request that caused it.  What the listener does to the world is done
    when the request returns; an exception it throws does not reach the
    caller of the request (React rethrows it in its own native listener,
    and the browser reports it to the window).  React runs the listener
    in a batch; a handler operation is a [Method] on the world and queues
    no update, so that batch has nothing to apply. *)
Definition deliver (l : Js unit) : Rx unit :=
  put (with_world (fun w => world_of (l w))).

(** What a focus change does to the document: the node takes the focus;
    the browser scrolls it into view. *)
Definition take_focus (d : Dom) : Dom :=
  {| scrollParentIsWindow := scrollParentIsWindow d;
     scrollOffset := scrollOffset d;
     editorNodeFocused := true |}.

Definition scroll_into_view (d : Dom) : Dom :=
  {| scrollParentIsWindow := scrollParentIsWindow d;
     scrollOffset := scrollOnFocus d;
     editorNodeFocused := editorNodeFocused d |}.

(** [editorNode.focus()].  A node that cannot take the focus ignores the
    request.  One that holds it already gets no event.  Otherwise the node
    takes the focus and the focus event goes to [this._onFocus], the
    listener [render] sets as [onFocus]; after that the browser scrolls
    the node into view. *)
Definition editorNode_focus : Rx unit :=
  (can_focus <- get focusable ;;
   if can_focus then
     (has_focus <- get (fun p => editorNodeFocused (dom (world p))) ;;
      (if has_focus then result tt
       else
         (lift (write (with_dom take_focus)) ;;
          deliver (listener Attr.onFocus focusEvent))) ;;
      lift (write (with_dom scroll_into_view)))
   else result tt)%page.

(** [editorNode.blur()]: a node that holds the focus loses it, and the
    blur event goes to [this._onBlur]. *)
Definition editorNode_blur : Rx unit :=
  (has_focus <- get (fun p => editorNodeFocused (dom (world p))) ;;
   if has_focus then
     (lift editorNode_blur ;;
      deliver (listener Attr.onBlur blurEvent))
   else result tt)%page.

(** [_focus]: as in the source.  On a component that is not mounted
    [ReactDOM.findDOMNode(this.refs.editor)] is [null], and the method
    ends in a [TypeError] ([getScrollPosition(null)], [null.focus()]). *)
Definition _focus (scrollPosition : option DraftScrollPosition) : Rx unit :=
  (lift (called (call_focus scrollPosition)) ;;
   es <- lift (read (fun w => editorState (props w))) ;;
   let alreadyHasFocus := getHasFocus (getSelection es) in
   has_node <- get mounted ;;
   if has_node then
     (scrollParent_is_window <-
        lift (read (fun w => scrollParentIsWindow (dom w))) ;;
      (* const {x, y} = scrollPosition || getScrollPosition(scrollParent) *)
      target <- match scrollPosition with
                | Some given => result given
                | None => lift (read (fun w => getScrollPosition (dom w)))
                end ;;
      editorNode_focus ;;
      lift (if scrollParent_is_window
            then window_scrollTo (x target) (y target)
            else Scroll_setTop (y target)) ;;
      if negb alreadyHasFocus then
        lift (_update (forceSelection es (getSelection es)))
      else result tt)
   else raise "TypeError")%page.

Definition _blur : Rx unit :=
  (has_node <- get mounted ;;
   if has_node then editorNode_blur else raise "TypeError")%page.

(** ** React's update queue *)

Definition enqueueUpdate (u : Update) : Rx unit :=
  put (fun p => set_pending (pendingUpdates p ++ [u]) p).

(** The callbacks of the queued calls, oldest first. *)
Fixpoint callbacks (us : list Update) : Rx unit :=
  match us with
  | [] => result tt
  | u :: us' =>
      (_focus (callback_scrollPosition u) ;; callbacks us')%page
  end.

(** React applies the queue: the partial states are merged in order (the
    last [containerKey] wins), then one update cycle runs
    ([componentWillUpdate], the new state, render and commit, where a
    changed key discards and rebuilds the keyed subtree,
    [componentDidUpdate]), then the callbacks. *)
Definition flushBatchedUpdates : Rx unit :=
  fun p =>
    match pendingUpdates p with
    | [] => Returns tt p
    | u :: us =>
        let nextState := partialState (last us u) in
        (put (set_pending []) ;;
         lift componentWillUpdate ;;
         previous <- lift (read (fun w => state (this w))) ;;
         lift (write (with_this (set_state nextState))) ;;
         lift (if containerKey previous =? containerKey nextState
               then ret tt
               else write (with_dom remount)) ;;
         lift componentDidUpdate ;;
         callbacks (u :: us))%page p
    end.

(** [ReactUpdates.batchedUpdates(body)]: inside a batch the body just
    runs; otherwise the batch opens, the body runs, the queue is applied
    and the batch closes.  When the body throws, the queue is applied all
    the same and the body's exception goes on. *)
Definition batchedUpdates (body : Rx unit) : Rx unit :=
  fun p =>
    if isBatchingUpdates p then body p
    else
      match body (set_batching true p) with
      | Returns _ p1 =>
          match flushBatchedUpdates p1 with
          | Returns _ p2 => Returns tt (set_batching false p2)
          | Throws exn p2 => Throws exn (set_batching false p2)
          end
      | Throws exn p1 =>
          Throws exn (set_batching false (page_of (flushBatchedUpdates p1)))
      end.

(** [this.setState(partial, () => {this._focus(scrollPosition);})].
    React ignores the call on a component that is not mounted; otherwise
    it queues the update, in a batch of its own when none is open. *)
Definition setState (partial : State)
    (scrollPosition : option DraftScrollPosition) : Rx unit :=
  (is_mounted <- get mounted ;;
   if is_mounted then
     batchedUpdates
       (enqueueUpdate {| partialState := partial;
                         callback_scrollPosition := scrollPosition |})
   else result tt)%page.

Definition _restoreEditorDOM (scrollPosition : option DraftScrollPosition)
  : Rx unit :=
  (key <- lift (read (fun w => containerKey (state (this w)))) ;;
   setState {| containerKey := key + 1 |} scrollPosition)%page.

(** ** Runs on a page *)

Definition perform (o : Operation) : Rx unit :=
  match o with
  | op_focus scrollPosition => _focus scrollPosition
  | op_blur => _blur
  | op_restoreEditorDOM scrollPosition => _restoreEditorDOM scrollPosition
  | _ => lift (perform o)
  end.

Fixpoint perform_all (os : list Operation) : Rx unit :=
  match os with
  | [] => result tt
  | o :: os' => (perform o ;; perform_all os')%page
  end.

(** [n] calls to [focus()] with no scroll position. *)
Fixpoint focus_times (n : nat) : Rx unit :=
  match n with
  | O => result tt
  | S n' => (_focus None ;; focus_times n')%page
  end.

(** ** Reading a page *)

(** The operation a focus request on the page hands the focus event to:
    the active handler's [onFocus], when the node takes the focus it did
    not hold and the editor is not read-only. *)
Definition focus_operation (p : t) : option Method :=
  if focusable p && negb (editorNodeFocused (dom (world p)))
     && negb (readOnly (props (world p)))
  then match _handler (this (world p)) with
       | value o => get_member o onFocus
       | _ => None
       end
  else None.

(** The page React has committed once it has applied [next]: the state
    installed, the keyed subtree rebuilt when the key changed, both
    update hooks run, the queue empty. *)
Definition committed (next : State) (p : t) : t :=
  set_pending []
    (with_world (fun w =>
       {| this := set_blockSelectEvents false (set_state next (this w));
          props := props w;
          dom := if containerKey (state (this w)) =? containerKey next
                 then dom w else remount (dom w);
          calls := calls w |}) p).

(** The updates queued by [restoreEditorDOM] calls made with the given
    scroll positions while the key is [key]. *)
Definition requests (key : Z) (sps : list (option DraftScrollPosition))
  : list Update :=
  map (fun sp => {| partialState := {| containerKey := key + 1 |};
                    callback_scrollPosition := sp |}) sps.

Fixpoint restoreEditorDOM_all (sps : list (option DraftScrollPosition))
  : Rx unit :=
  match sps with
  | [] => result tt
  | sp :: sps' => (_restoreEditorDOM sp ;; restoreEditorDOM_all sps')%page
  end.

Fixpoint focus_all (sps : list (option DraftScrollPosition)) : Rx unit :=
  match sps with
  | [] => result tt
  | sp :: sps' => (_focus sp ;; focus_all sps')%page
  end.

End Methods.

End Page.

(** An operation that reaches React or the focus of the document. *)
Definition reaches_platform `{C : Collaborators} (o : Operation) : bool :=
  match o with
  | op_focus _ | op_blur | op_restoreEditorDOM _ => true
  | _ => false
  end.

(** The scroll positions of the [restoreEditorDOM] calls of a sequence. *)
Definition restore_positions `{C : Collaborators} (os : list Operation)
  : list (option DraftScrollPosition) :=
  flat_map (fun o => match o with
                     | op_restoreEditorDOM scrollPosition => [scrollPosition]
                     | _ => []
                     end) os.

(** The value an update hook writes to [_blockSelectEvents]. *)
Definition update_hook `{C : Collaborators} (o : Operation) : option bool :=
  match o with
  | op_componentWillUpdate => Some true
  | op_componentDidUpdate => Some false
  | _ => None
  end.

(** The editor states the [update] operations of a sequence are given. *)
Definition updates_requested `{C : Collaborators} (os : list Operation)
  : list EditorState :=
  flat_map (fun o => match o with
                     | op_update given => [given]
                     | _ => []
                     end) os.

(** Handler modules whose operations leave [this.state] alone. *)
Definition handlers_keep_state `{C : Collaborators} `{H : @Handlers C}
  : Prop :=
  forall (h : HandlerModule) (eventName : EventName) (f : Method),
    member h eventName = Some f ->
    forall (r : Receiver) (e : SyntheticEvent) (w : World),
      state (this (world_of (f r e w))) = state (this w).

(** ** A concrete page *)

Definition sample_events : @Events sample_collaborators :=
  {| focusEvent := sample_event "focus";
     blurEvent := sample_event "blur" |}.

(** An [onFocus] operation in the manner of the repository's edit
    handler: unless the selection reports focus already, it hands
    [update] the editor state with the selection marked as focused. *)
Definition sample_onFocus : @Method sample_collaborators :=
  fun _ _ (w : @World sample_collaborators) =>
    let es : bool * nat := editorState (props w) in
    if fst es then Normal tt w
    else @_update sample_collaborators (true, snd es) w.

Definition sample_handlers_onFocus : @Handlers sample_collaborators :=
  {| member := fun h eventName =>
       match h, eventName with
       | DraftEditorEditHandler, onFocus => Some sample_onFocus
       | _, _ => @member sample_collaborators sample_handlers h eventName
       end |}.

(** The page of a mounted, focusable editor outside a batch. *)
Definition sample_page (w : @World sample_collaborators)
  : @Page.t sample_collaborators :=
  {| Page.world := w;
     Page.mounted := true;
     Page.focusable := true;
     Page.isBatchingUpdates := false;
     Page.pendingUpdates := [] |}.

(** * Properties *)

Section Properties.

Context `{C : Collaborators} `{H : @Handlers C}.

(** Unfolds the methods and the monad down to plain world updates. *)
Ltac js_unfold :=
  unfold perform, mode_call, drag, _restoreEditorDOM, setState, _focus,
    _blur, componentDidMount, componentWillUpdate, componentDidUpdate,
    _onDragLeave, _onDragEnter, _exitCurrentMode, _setMode, _update,
    onChange, _setRenderGuard, _removeRenderGuard, _setClipboard,
    _getClipboard, editorNode_focus, editorNode_blur, window_scrollTo,
    Scroll_setTop, getScrollPosition, called, bind, ret, read, write in *.

Ltac js_run := js_unfold; cbn.

(** ** Mode registry *)


Lemma handlerMap_unknown (mode : string) :
  ~ In mode DraftEditorModes ->
  handlerMap mode = undefined
  \/ handlerMap mode = value (prototype_member mode).
Proof.
  intros Hout. unfold handlerMap.
  destruct (String.eqb_spec mode "edit") as [-> | _];
    [ exfalso; apply Hout; cbn; auto | ].
  destruct (String.eqb_spec mode "composite") as [-> | _];
    [ exfalso; apply Hout; cbn; auto | ].
  destruct (String.eqb_spec mode "drag") as [-> | _];
    [ exfalso; apply Hout; cbn; auto | ].
  destruct (String.eqb_spec mode "cut") as [-> | _];
    [ exfalso; apply Hout; cbn; auto | ].
  destruct (String.eqb_spec mode "render") as [-> | _];
    [ exfalso; apply Hout; cbn; auto 6 | ].
  destruct (existsb (String.eqb mode) Object_prototype); auto.
Qed.

Lemma setMode_run (mode : string) (w : World) :
  _setMode mode w =
  Normal tt (with_this (set_handler (handlerMap mode))
               (with_call (call_setMode mode) w)).
Proof. reflexivity. Qed.

Lemma exitCurrentMode_run (w : World) :
  _exitCurrentMode w =
  Normal tt (with_this (set_handler (handlerMap "edit"))
               (with_call (call_setMode "edit")
                  (with_call call_exitCurrentMode w))).
Proof. reflexivity. Qed.

Lemma mode_call_run (c : ModeCall) (w : World) :
  exists w',
    mode_call c w = Normal tt w'
    /\ _handler (this w') = handlerMap (mode_set_by c).
Proof.
  destruct c as [mode | ]; cbn [mode_call mode_set_by].
  - rewrite setMode_run. eexists; split; reflexivity.
  - rewrite exitCurrentMode_run. eexists; split; reflexivity.
Qed.

Lemma mode_calls_app (l1 l2 : list ModeCall) (w : World) :
  mode_calls (l1 ++ l2) w =
  match mode_calls l1 w with
  | Normal _ w' => mode_calls l2 w'
  | Throw exn w' => Throw exn w'
  end.
Proof.
  revert w. induction l1 as [ | c l1 IH]; intros w; cbn [mode_calls app].
  - reflexivity.
  - unfold bind. destruct (mode_call c w); [apply IH | reflexivity].
Qed.

Lemma mode_calls_normal (l : list ModeCall) (w : World) :
  exists w', mode_calls l w = Normal tt w'.
Proof.
  revert w. induction l as [ | c l IH]; intros w; cbn [mode_calls].
  - eexists; reflexivity.
  - unfold bind. destruct (mode_call_run c w) as (w1 & -> & _). apply IH.
Qed.

(** C4.  After any sequence of [setMode] and [exitCurrentMode] calls, the
    active handler [_handler] is the registry's entry [handlerMap[mode]]
    for the mode set by the last call of the sequence; the entries for
    ['cut'] and ['render'] are [null] and those for ['edit'], ['composite']
    and ['drag'] are the three handler modules; and [exitCurrentMode()]
    leaves the component, the props and the document exactly as
    [setMode('edit')] does, its trace being that of [setMode('edit')]
    preceded by its own entry. *)
Theorem activeHandler_is_registry_entry :
  (forall (l : list ModeCall) (c : ModeCall) (w : World),
      exists w',
        mode_calls (l ++ [c]) w = Normal tt w'
        /\ _handler (this w') = handlerMap (mode_set_by c))
  /\ (handlerMap "edit" = value (handler_module DraftEditorEditHandler)
      /\ handlerMap "composite"
         = value (handler_module DraftEditorCompositionHandler)
      /\ handlerMap "drag" = value (handler_module DraftEditorDragHandler)
      /\ handlerMap "cut" = null
      /\ handlerMap "render" = null)
  /\ (forall w : World,
        exists w1 w2,
          _exitCurrentMode w = Normal tt w1
          /\ _setMode "edit" w = Normal tt w2
          /\ this w1 = this w2
          /\ props w1 = props w2
          /\ dom w1 = dom w2
          /\ calls w1 = calls w ++ [call_exitCurrentMode; call_setMode "edit"]
          /\ calls w2 = calls w ++ [call_setMode "edit"]).
Proof.
  split; [ | split ].
  - intros l c w. rewrite mode_calls_app.
    destruct (mode_calls_normal l w) as (w1 & ->).
    cbn [mode_calls]. unfold bind.
    destruct (mode_call_run c w1) as (w2 & -> & Hh).
    exists w2. split; [reflexivity | exact Hh].
  - repeat split; reflexivity.
  - intros w. rewrite exitCurrentMode_run, setMode_run.
    do 2 eexists. repeat split; cbn.
    rewrite <- app_assoc. reflexivity.
Qed.

(** ** Event dispatch *)

Lemma buildHandler_run (eventName : EventName) (e : SyntheticEvent)
    (w : World) :
  _buildHandler eventName e w =
  if readOnly (props w) then Normal tt w
  else match _handler (this w) with
       | value o =>
           match get_member o eventName with
           | Some f => f the_editor e w
           | None => Normal tt w
           end
       | _ => Normal tt w
       end.
Proof.
  unfold _buildHandler, bind, read, ret.
  destruct (readOnly (props w)); cbn; [reflexivity | ].
  destruct (_handler (this w)) as [ | | o]; try reflexivity.
  destruct (get_member o eventName); reflexivity.
Qed.

(** C2.  For every callback [_buildHandler(eventName)] and every event
    [e]: when [props.readOnly] holds the callback returns normally and
    leaves the world as it was; otherwise, when the active handler is a
    module that has an operation named [eventName], the callback is exactly
    that operation called with the editor as [this] and [e] as argument;
    and when [_handler] is [null] or [undefined], or the object it holds
    has no operation of that name, the callback returns normally and
    leaves the world as it was. *)
Theorem buildHandler_dispatch (eventName : EventName) (e : SyntheticEvent)
    (w : World) :
  (readOnly (props w) = true ->
   _buildHandler eventName e w = Normal tt w)
  /\ (readOnly (props w) = false ->
      forall (h : HandlerModule) (f : Method),
        _handler (this w) = value (handler_module h) ->
        member h eventName = Some f ->
        _buildHandler eventName e w = f the_editor e w)
  /\ (readOnly (props w) = false ->
      _handler (this w) = null
      \/ _handler (this w) = undefined
      \/ (exists o, _handler (this w) = value o
                    /\ get_member o eventName = None) ->
      _buildHandler eventName e w = Normal tt w).
Proof.
  rewrite buildHandler_run.
  split; [ | split ].
  - intros ->. reflexivity.
  - intros -> h f -> Hf. cbn. rewrite Hf. reflexivity.
  - intros -> [-> | [-> | (o & -> & ->)]]; reflexivity.
Qed.

(** C9 (amended).  [setMode] makes no check of its argument: for a mode
    identifier outside the closed set [DraftEditorModes] the call returns
    normally, as for any other mode, and stores the result of the lookup
    [handlerMap[mode]], which is [undefined] or a member inherited from
    [Object.prototype]; no event operation is found on it, so every event
    callback then returns normally without changing anything. *)
Theorem setMode_unknown_mode (mode : string) (w : World) :
  ~ In mode DraftEditorModes ->
  exists w',
    _setMode mode w = Normal tt w'
    /\ _handler (this w') = handlerMap mode
    /\ (handlerMap mode = undefined
        \/ handlerMap mode = value (prototype_member mode))
    /\ calls w' = calls w ++ [call_setMode mode]
    /\ forall (eventName : EventName) (e : SyntheticEvent),
         _buildHandler eventName e w' = Normal tt w'.
Proof.
  intros Hout. rewrite setMode_run. eexists.
  split; [reflexivity | ].
  split; [reflexivity | ].
  split; [exact (handlerMap_unknown mode Hout) | ].
  split; [reflexivity | ].
  intros eventName e. rewrite buildHandler_run. cbn.
  destruct (readOnly (props w)); [reflexivity | ].
  destruct (handlerMap_unknown mode Hout) as [-> | ->]; reflexivity.
Qed.

(** ** Clipboard staging *)

(** C8.  For every payload [X] ([undefined] and [null] included),
    [setClipboard(X)] followed by [getClipboard()] returns [X]; after
    [setClipboard(X)] and then [setClipboard(Y)], [getClipboard()] returns
    [Y]; and [getClipboard()] returns the staged payload and leaves the
    world as it was, so two reads in a row return the same value. *)
Theorem clipboard_last_write_wins (X Y : Maybe BlockMap) (w : World) :
  (exists w', (_setClipboard X ;; _getClipboard) w = Normal X w')
  /\ (exists w',
        (_setClipboard X ;; _setClipboard Y ;; _getClipboard) w
        = Normal Y w')
  /\ _getClipboard w = Normal (_clipboard (this w)) w
  /\ (exists w',
        (_setClipboard X ;;
         a <- _getClipboard ;; b <- _getClipboard ;; ret (a, b)) w
        = Normal (X, X) w'
        /\ _clipboard (this w') = X).
Proof.
  repeat split; try (eexists; reflexivity).
  eexists; split; reflexivity.
Qed.

(** ** Frame conditions *)

(** C10.  [setClipboard] changes only [_clipboard], [setRenderGuard] and
    [removeRenderGuard] change only [_guardAgainstRender], and [setMode]
    changes only [_handler]: the other instance fields ([_dragCount],
    [_blockSelectEvents], ...), the React state with its [containerKey],
    the props and the document are as before; [getClipboard] changes
    nothing at all. *)
Theorem setters_change_only_their_field (w : World) :
  (forall clipboard : Maybe BlockMap,
      exists w',
        _setClipboard clipboard w = Normal tt w'
        /\ this w' = {| _blockSelectEvents := _blockSelectEvents (this w);
                        _clipboard := clipboard;
                        _guardAgainstRender := _guardAgainstRender (this w);
                        _handler := _handler (this w);
                        _dragCount := _dragCount (this w);
                        state := state (this w) |}
        /\ props w' = props w /\ dom w' = dom w /\ calls w' = calls w)
  /\ (exists w',
        _setRenderGuard w = Normal tt w'
        /\ this w' = {| _blockSelectEvents := _blockSelectEvents (this w);
                        _clipboard := _clipboard (this w);
                        _guardAgainstRender := true;
                        _handler := _handler (this w);
                        _dragCount := _dragCount (this w);
                        state := state (this w) |}
        /\ props w' = props w /\ dom w' = dom w /\ calls w' = calls w)
  /\ (exists w',
        _removeRenderGuard w = Normal tt w'
        /\ this w' = {| _blockSelectEvents := _blockSelectEvents (this w);
                        _clipboard := _clipboard (this w);
                        _guardAgainstRender := false;
                        _handler := _handler (this w);
                        _dragCount := _dragCount (this w);
                        state := state (this w) |}
        /\ props w' = props w /\ dom w' = dom w /\ calls w' = calls w)
  /\ (forall mode : string,
        exists w',
          _setMode mode w = Normal tt w'
          /\ this w' = {| _blockSelectEvents := _blockSelectEvents (this w);
                          _clipboard := _clipboard (this w);
                          _guardAgainstRender := _guardAgainstRender (this w);
                          _handler := handlerMap mode;
                          _dragCount := _dragCount (this w);
                          state := state (this w) |}
          /\ props w' = props w /\ dom w' = dom w)
  /\ _getClipboard w = Normal (_clipboard (this w)) w.
Proof.
  split; [ intros clipboard | split; [ | split; [ | split ] ] ];
    try (intros mode); try (eexists; repeat split; reflexivity).
Qed.

(** ** Drag tracking *)

Lemma drag_step (c : DragCall) (w : World) :
  exists w',
    drag c w = Normal tt w'
    /\ _dragCount (this w') = _dragCount (this w) + delta c
    /\ calls w' =
       calls w ++ (if leaves_to_zero c (_dragCount (this w'))
                   then [call_exitCurrentMode; call_setMode "edit"]
                   else [])
    /\ _handler (this w') =
       (if leaves_to_zero c (_dragCount (this w'))
        then handlerMap "edit"
        else _handler (this w)).
Proof.
  destruct c; js_run.
  - eexists. split; [reflexivity | ]. cbn.
    rewrite app_nil_r. repeat split; reflexivity.
  - destruct (_dragCount (this w) - 1 =? 0) eqn:E.
    + eexists. split; [reflexivity | ]. cbn. rewrite E.
      rewrite <- app_assoc. repeat split; reflexivity.
    + eexists. split; [reflexivity | ]. cbn. rewrite E.
      rewrite app_nil_r. repeat split; reflexivity.
Qed.

Lemma exit_count_app (l1 l2 : list Call) :
  exit_count (l1 ++ l2) = (exit_count l1 + exit_count l2)%nat.
Proof.
  unfold exit_count. rewrite filter_app, length_app. reflexivity.
Qed.

Lemma drag_step_exits (c : DragCall) (w w' : World) :
  drag c w = Normal tt w' ->
  exit_count (calls w') =
  (exit_count (calls w)
   + (if leaves_to_zero c (_dragCount (this w) + delta c) then 1 else 0))%nat.
Proof.
  intros E. destruct (drag_step c w) as (w1 & E1 & Hn & Hc & _).
  rewrite E in E1. injection E1 as <-.
  rewrite Hc, exit_count_app, Hn.
  destruct (leaves_to_zero c (_dragCount (this w) + delta c)); reflexivity.
Qed.

Lemma drags_run (t : list DragCall) (w : World) :
  exists w',
    drags t w = Normal tt w'
    /\ _dragCount (this w') = _dragCount (this w) + net t
    /\ drag_counts t w = running (_dragCount (this w)) t
    /\ exit_count (calls w') =
       (exit_count (calls w) + leave_zeros (_dragCount (this w)) t)%nat.
Proof.
  revert w. induction t as [ | c t IH]; intros w; cbn.
  - exists w. repeat split; try reflexivity; try lia.
  - unfold bind.
    destruct (drag_step c w) as (w1 & E1 & Hn & _).
    pose proof (drag_step_exits c w w1 E1) as Hx.
    rewrite E1.
    destruct (IH w1) as (w2 & E2 & Hn2 & Hr & Hx2).
    exists w2. rewrite Hn in *.
    repeat split.
    + exact E2.
    + lia.
    + rewrite Hr. reflexivity.
    + rewrite Hx2, Hx. lia.
Qed.

Lemma running_length (n : Z) (t : list DragCall) :
  List.length (running n t) = List.length t.
Proof.
  revert n. induction t as [ | c t IH]; intros n; cbn; [ | rewrite IH ];
    reflexivity.
Qed.

Lemma leave_zeros_le_zeros (n : Z) (t : list DragCall) :
  (leave_zeros n t <= zeros (running n t))%nat.
Proof.
  revert n. induction t as [ | c t IH]; intros n.
  - apply Nat.le_refl.
  - specialize (IH (n + delta c)). unfold zeros in *.
    cbn [running leave_zeros filter].
    destruct c; cbn [leaves_to_zero];
      destruct (_ =? 0); cbn [List.length]; lia.
Qed.

Lemma well_nested_running (d : nat) (t : list DragCall) :
  Forall (fun n => 0 <= n) (running (Z.of_nat d) t)
  <-> well_nested_at d t = true.
Proof.
  revert d. induction t as [ | c t IH]; intros d; cbn.
  - split; [reflexivity | constructor].
  - destruct c; cbn [delta].
    + replace (Z.of_nat d + 1) with (Z.of_nat (S d)) by lia.
      rewrite <- IH. split.
      * intros Hall. inversion Hall; assumption.
      * intros Hall. constructor; [lia | assumption].
    + destruct d as [ | d].
      * split; [ | discriminate ].
        intros Hall. inversion Hall; subst. cbn in *. lia.
      * replace (Z.of_nat (S d) + -1) with (Z.of_nat d) by lia.
        rewrite <- IH. split.
        -- intros Hall. inversion Hall; assumption.
        -- intros Hall. constructor; [lia | assumption].
Qed.

Lemma blocks_are_leave_zeros (d : nat) (t : list DragCall) :
  well_nested_at d t = true ->
  balanced_blocks_at d t = leave_zeros (Z.of_nat d) t.
Proof.
  revert d. induction t as [ | c t IH]; intros d; cbn; [reflexivity | ].
  destruct c; cbn [delta leaves_to_zero].
  - intros Hw. replace (Z.of_nat d + 1) with (Z.of_nat (S d)) by lia.
    rewrite (IH _ Hw). reflexivity.
  - destruct d as [ | d]; [discriminate | ].
    intros Hw. replace (Z.of_nat (S d) + -1) with (Z.of_nat d) by lia.
    rewrite <- (IH _ Hw).
    destruct d as [ | d]; reflexivity.
Qed.

Lemma balanced_skipped (u : list DragCall) :
  balanced u ->
  forall (d : nat) (rest : list DragCall),
    balanced_blocks_at (S d) (u ++ rest) = balanced_blocks_at (S d) rest
    /\ well_nested_at (S d) (u ++ rest) = well_nested_at (S d) rest.
Proof.
  induction 1 as [ | u Hu IHu | u v Hu IHu Hv IHv]; intros d rest.
  - split; reflexivity.
  - cbn [app balanced_blocks_at well_nested_at].
    rewrite <- app_assoc.
    destruct (IHu (S d) ([DragLeave] ++ rest)) as [-> ->].
    split; reflexivity.
  - rewrite <- app_assoc.
    destruct (IHu d (v ++ rest)) as [-> ->]. apply IHv.
Qed.

Lemma pending_counts_nothing (r : list DragCall) :
  pending r ->
  forall d : nat,
    balanced_blocks_at d r = O /\ well_nested_at d r = true.
Proof.
  induction 1 as [ | u r Hu Hr IH]; intros d.
  - split; reflexivity.
  - cbn [balanced_blocks_at well_nested_at].
    destruct (balanced_skipped u Hu d r) as [-> ->]. apply IH.
Qed.

(** [balanced_blocks] counts what its name says: on a sequence made of
    balanced blocks followed by an unfinished tail, it is the number of
    blocks, and such a sequence is well nested. *)
Lemma balanced_blocks_of_blocks (bs : list (list DragCall))
    (r : list DragCall) :
  Forall block bs -> pending r ->
  balanced_blocks (List.concat bs ++ r) = List.length bs
  /\ well_nested (List.concat bs ++ r) = true.
Proof.
  intros Hbs Hr. unfold balanced_blocks, well_nested.
  induction Hbs as [ | b bs (u & Hu & ->) _ IH]; cbn [List.concat app].
  - apply (pending_counts_nothing r Hr).
  - cbn [balanced_blocks_at well_nested_at List.length].
    rewrite <- !app_assoc.
    destruct (balanced_skipped u Hu 0%nat ([DragLeave] ++ List.concat bs ++ r))
      as [-> ->].
    cbn [app balanced_blocks_at well_nested_at].
    destruct IH as [-> ->]. split; reflexivity.
Qed.

Ltac app_norm :=
  repeat first
    [ rewrite <- app_assoc | rewrite <- app_comm_cons | progress cbn [app] ].

Lemma pending_unwind (frames : list (list DragCall)) :
  Forall balanced frames ->
  forall r : list DragCall, pending r -> pending (unwind frames ++ r).
Proof.
  induction 1 as [ | u frames Hu _ IH]; intros r Hr; cbn [unwind app].
  - exact Hr.
  - rewrite <- app_assoc. apply IH. cbn [app].
    apply pending_enter; assumption.
Qed.

Lemma well_nested_at_decomposes (t : list DragCall) :
  forall (frames bs : list (list DragCall)),
    well_nested_at (List.length frames) t = true ->
    Forall balanced frames -> Forall block bs ->
    exists bs' r,
      List.concat bs ++ unwind frames ++ t = List.concat bs' ++ r
      /\ Forall block bs' /\ pending r.
Proof.
  induction t as [ | c t IH]; intros frames bs Hw Hf Hbs.
  - exists bs, (unwind frames). rewrite app_nil_r.
    split; [reflexivity | split; [assumption | ] ].
    rewrite <- (app_nil_r (unwind frames)).
    apply pending_unwind; [assumption | constructor].
  - destruct c; cbn [well_nested_at] in Hw.
    + destruct (IH ([] :: frames) bs Hw) as (bs' & r & E & Hb' & Hr);
        [ constructor; [constructor | assumption] | assumption | ].
      exists bs', r. split; [ | split; assumption ].
      rewrite <- E. cbn [unwind]. app_norm. reflexivity.
    + destruct frames as [ | u frames]; [discriminate | ].
      cbn [List.length] in Hw.
      inversion Hf as [ | ? ? Hu Hf']; subst.
      destruct frames as [ | v frames].
      * destruct (IH [] (bs ++ [DragEnter :: u ++ [DragLeave]]) Hw)
          as (bs' & r & E & Hb' & Hr).
        -- constructor.
        -- apply Forall_app. split; [assumption | ].
           constructor; [ | constructor ]. exists u. split; [assumption | reflexivity].
        -- exists bs', r. split; [ | split; assumption ].
           rewrite <- E. rewrite concat_app. cbn [List.concat unwind].
           app_norm. reflexivity.
      * inversion Hf' as [ | ? ? Hv Hf'']; subst.
        destruct (IH ((v ++ DragEnter :: u ++ [DragLeave]) :: frames) bs Hw)
          as (bs' & r & E & Hb' & Hr).
        -- constructor; [ | assumption ].
           apply balanced_seq; [assumption | ].
           apply balanced_nest; assumption.
        -- assumption.
        -- exists bs', r. split; [ | split; assumption ].
           rewrite <- E. cbn [unwind]. app_norm. reflexivity.
Qed.

(** Every well nested sequence is made of balanced blocks followed by an
    unfinished tail. *)
Lemma well_nested_decomposes (t : list DragCall) :
  well_nested t = true ->
  exists bs r,
    t = List.concat bs ++ r /\ Forall block bs /\ pending r.
Proof.
  intros Hw.
  destruct (well_nested_at_decomposes t [] [] Hw) as (bs & r & E & Hb & Hr);
    try constructor.
  exists bs, r. split; [exact E | split; assumption].
Qed.

Lemma net_app (a b : list DragCall) : net (a ++ b) = net a + net b.
Proof.
  induction a as [ | c a IH]; cbn [app net]; [ | rewrite IH ]; lia.
Qed.

Lemma balanced_net (u : list DragCall) : balanced u -> net u = 0.
Proof.
  induction 1 as [ | u Hu IHu | u v Hu IHu Hv IHv].
  - reflexivity.
  - cbn [net delta]. rewrite net_app, IHu. reflexivity.
  - rewrite net_app, IHu, IHv. reflexivity.
Qed.

Lemma block_net (b : list DragCall) : block b -> net b = 0.
Proof.
  intros (u & Hu & ->). cbn [net delta].
  rewrite net_app, (balanced_net u Hu). reflexivity.
Qed.

Lemma net_unwind (frames : list (list DragCall)) :
  Forall balanced frames ->
  net (unwind frames) = Z.of_nat (List.length frames).
Proof.
  induction 1 as [ | u frames Hu _ IH]; [reflexivity | ].
  cbn [unwind List.length]. rewrite net_app, IH. cbn [net delta].
  rewrite (balanced_net u Hu). lia.
Qed.

Lemma balanced_prefix_nonneg (u : list DragCall) :
  balanced u -> forall a b, u = a ++ b -> 0 <= net a.
Proof.
  induction 1 as [ | u Hu IHu | u v Hu IHu Hv IHv]; intros a b E.
  - symmetry in E. apply app_eq_nil in E as [-> _]. cbn. lia.
  - destruct a as [ | c a]; [cbn; lia | ].
    cbn [app] in E. injection E as <- E.
    apply app_eq_app in E as (l & [[-> E] | [-> E]]).
    + specialize (IHu a l eq_refl). cbn [net delta]. lia.
    + cbn [net delta]. rewrite net_app, (balanced_net u Hu).
      destruct l as [ | c l].
      * cbn. lia.
      * cbn [app] in E. injection E as <- E.
        symmetry in E. apply app_eq_nil in E as [-> _]. cbn. lia.
  - apply app_eq_app in E as (l & [[-> E] | [-> E]]).
    + apply (IHu a l eq_refl).
    + rewrite net_app, (balanced_net u Hu).
      specialize (IHv l b E). lia.
Qed.

(** A leave that brings a sequence read from zero back to zero completes
    a balanced block begun at zero; [pre] is what has been read, either
    below zero or back at zero with some enters open. *)
Lemma leave_to_zero_completes (t : list DragCall) :
  forall pre : list DragCall,
    net pre < 0
    \/ (exists q frames,
          pre = q ++ unwind frames /\ net q = 0 /\ Forall balanced frames) ->
    net pre + net t = 1 ->
    completes_block (pre ++ t ++ [DragLeave]).
Proof.
  induction t as [ | c t IH]; intros pre Hpre Hnet.
  - cbn [net app] in *. destruct Hpre as [Hneg | (q & frames & -> & Hq & Hf)];
      [lia | ].
    rewrite net_app, (net_unwind frames Hf), Hq in Hnet.
    destruct frames as [ | u [ | v frames] ]; cbn [List.length] in Hnet;
      try lia.
    inversion Hf as [ | ? ? Hu _]; subst.
    exists q, (DragEnter :: u ++ [DragLeave]).
    split; [cbn [unwind]; app_norm; reflexivity | ].
    split; [exact Hq | ]. exists u. split; [exact Hu | reflexivity].
  - replace (pre ++ (c :: t) ++ [DragLeave])
      with ((pre ++ [c]) ++ t ++ [DragLeave]) by (app_norm; reflexivity).
    apply IH.
    + destruct Hpre as [Hneg | (q & frames & -> & Hq & Hf)].
      * destruct c.
        -- destruct (Z.eq_dec (net pre + 1) 0) as [Hz | Hnz].
           ++ right. exists (pre ++ [DragEnter]), [].
              cbn [unwind]. rewrite app_nil_r, net_app. cbn [net delta].
              repeat split; [lia | constructor].
           ++ left. rewrite net_app. cbn [net delta]. lia.
        -- left. rewrite net_app. cbn [net delta]. lia.
      * destruct c.
        -- right. exists q, ([] :: frames). cbn [unwind].
           split; [app_norm; reflexivity | ].
           split; [exact Hq | ]. constructor; [constructor | exact Hf].
        -- destruct frames as [ | u [ | v frames] ].
           ++ left. cbn [unwind]. rewrite app_nil_r, net_app, Hq.
              cbn [net delta]. lia.
           ++ inversion Hf as [ | ? ? Hu _]; subst.
              right. exists (q ++ DragEnter :: u ++ [DragLeave]), [].
              cbn [unwind]. split; [app_norm; reflexivity | ].
              split; [ | constructor ].
              rewrite net_app, Hq. cbn [net delta].
              rewrite net_app, (balanced_net u Hu). reflexivity.
           ++ inversion Hf as [ | ? ? Hu Hf']; subst.
              inversion Hf' as [ | ? ? Hv Hf'']; subst.
              right. exists q, ((v ++ DragEnter :: u ++ [DragLeave]) :: frames).
              cbn [unwind]. split; [app_norm; reflexivity | ].
              split; [exact Hq | ]. constructor; [ | exact Hf'' ].
              apply balanced_seq; [exact Hv | ].
              apply balanced_nest; exact Hu.
    + rewrite net_app. cbn [net] in *. lia.
Qed.

(** The calls that complete a balanced block begun at zero are the leaves
    at which the whole sequence has as many enters as leaves. *)
Lemma completes_block_iff (p : list DragCall) (c : DragCall) :
  completes_block (p ++ [c]) <-> c = DragLeave /\ net (p ++ [c]) = 0.
Proof.
  split.
  - intros (q & b & E & Hq & Hb).
    pose proof (block_net b Hb) as Hnb.
    destruct Hb as (u & Hu & ->).
    split; [ | rewrite E, net_app, Hq, Hnb; reflexivity ].
    replace (q ++ DragEnter :: u ++ [DragLeave])
      with ((q ++ DragEnter :: u) ++ [DragLeave]) in E
      by (app_norm; reflexivity).
    apply app_inj_tail in E as [_ ->]. reflexivity.
  - intros [-> Hnet].
    apply (leave_to_zero_completes p []).
    + right. exists [], []. repeat split. constructor.
    + rewrite net_app in Hnet. cbn [net delta] in *. lia.
Qed.

(** The block completed by a call is unique. *)
Lemma completed_block_unique (q b q' b' : list DragCall) :
  q ++ b = q' ++ b' ->
  net q = 0 -> net q' = 0 -> block b -> block b' ->
  q = q' /\ b = b'.
Proof.
  assert (forall q b q' b' l,
             q' = q ++ l -> b = l ++ b' ->
             net q = 0 -> net q' = 0 -> block b -> block b' -> l = [])
    as Hl.
  { clear. intros q b q' b' l -> -> Hq Hq' (u & Hu & E) (u' & Hu' & ->).
    rewrite net_app, Hq in Hq'.
    destruct l as [ | c l]; [reflexivity | exfalso].
    cbn [app] in E. injection E as -> E.
    replace (l ++ DragEnter :: u' ++ [DragLeave])
      with ((l ++ DragEnter :: u') ++ [DragLeave]) in E
      by (app_norm; reflexivity).
    apply app_inj_tail in E as [E _].
    pose proof (balanced_prefix_nonneg u Hu l _ (eq_sym E)) as Hpos.
    cbn [net delta] in Hq'. lia. }
  intros E Hq Hq' Hb Hb'.
  apply app_eq_app in E as (l & [[Eq Eb] | [Eq Eb]]).
  - pose proof (Hl q' b' q b l Eq Eb Hq' Hq Hb' Hb) as ->.
    rewrite app_nil_r in Eq. cbn [app] in Eb. split; congruence.
  - pose proof (Hl q b q' b' l Eq Eb Hq Hq' Hb Hb') as ->.
    rewrite app_nil_r in Eq. cbn [app] in Eb. split; congruence.
Qed.

(** C1 (amended).  The drag counter is not clamped: after any sequence of
    [onDragEnter] and [onDragLeave] calls it is its initial value plus the
    number of enters minus the number of leaves, so that, started at zero,
    it stays non-negative exactly when every leave is matched by an
    earlier enter, and a leave with no matching enter takes it below
    zero.  [exitCurrentMode] is called at most once for each time the
    counter reaches zero: a call to [onDragLeave] calls it once when the
    decremented counter is zero and not otherwise, and [onDragEnter] never
    calls it. *)
Theorem dragCount_is_net_and_exits_once :
  (forall (t : list DragCall) (w : World),
      exists w',
        drags t w = Normal tt w'
        /\ _dragCount (this w') = _dragCount (this w) + net t
        /\ List.length (drag_counts t w) = List.length t
        /\ (exit_count (calls w')
            <= exit_count (calls w) + zeros (drag_counts t w))%nat)
  /\ (forall (t : list DragCall) (w : World),
        _dragCount (this w) = 0 ->
        (Forall (fun n => 0 <= n) (drag_counts t w)
         <-> well_nested t = true))
  /\ (forall w : World,
        exists w',
          _onDragLeave w = Normal tt w'
          /\ _dragCount (this w') = _dragCount (this w) - 1
          /\ calls w' =
             calls w ++ (if _dragCount (this w') =? 0
                         then [call_exitCurrentMode; call_setMode "edit"]
                         else []))
  /\ (forall w : World,
        exists w',
          _onDragEnter w = Normal tt w'
          /\ _dragCount (this w') = _dragCount (this w) + 1
          /\ calls w' = calls w).
Proof.
  split; [ | split; [ | split ] ].
  - intros t w. destruct (drags_run t w) as (w' & E & Hn & Hr & Hx).
    exists w'. rewrite Hr, running_length.
    repeat split; try assumption.
    rewrite Hx. apply Nat.add_le_mono_l, leave_zeros_le_zeros.
  - intros t w Hz. destruct (drags_run t w) as (w' & _ & _ & -> & _).
    rewrite Hz. apply (well_nested_running 0).
  - intros w. destruct (drag_step DragLeave w) as (w' & E & Hn & Hc & _).
    exists w'. cbn [drag delta leaves_to_zero] in *.
    repeat split; try assumption.
  - intros w. destruct (drag_step DragEnter w) as (w' & E & Hn & Hc & _).
    exists w'. cbn [drag delta leaves_to_zero] in *.
    rewrite app_nil_r in Hc. repeat split; assumption.
Qed.

Lemma drags_app (a b : list DragCall) (w : World) :
  drags (a ++ b) w =
  match drags a w with
  | Normal _ w' => drags b w'
  | Throw exn w' => Throw exn w'
  end.
Proof.
  revert w. induction a as [ | c a IH]; intros w; cbn [drags app].
  - reflexivity.
  - unfold bind. destruct (drag c w); [apply IH | reflexivity].
Qed.

(** C3 (amended).  For every sequence of drag enter and leave calls run
    from counter zero, a call invokes [exitCurrentMode] (once, making the
    edit handler active) exactly when it completes a balanced block (an
    enter, a balanced interior, the matching leave) that began with the
    counter at zero, and the block a call completes is unique: the exit
    fires exactly once per such block.  When every leave of the sequence
    is matched by an earlier enter, the sequence is made of balanced
    blocks followed by an unfinished tail and the exit fires once per
    block, [balanced_blocks t] times in all.  No call, in any sequence,
    that leaves the counter above zero invokes [exitCurrentMode] or
    changes the active handler. *)
Theorem exit_once_per_balanced_block :
  (forall (p : list DragCall) (c : DragCall) (w : World),
      _dragCount (this w) = 0 ->
      exists w1 w2,
        drags p w = Normal tt w1
        /\ drag c w1 = Normal tt w2
        /\ drags (p ++ [c]) w = Normal tt w2
        /\ (completes_block (p ++ [c]) ->
            calls w2
            = calls w1 ++ [call_exitCurrentMode; call_setMode "edit"]
            /\ _handler (this w2) = handlerMap "edit")
        /\ (~ completes_block (p ++ [c]) ->
            calls w2 = calls w1
            /\ _handler (this w2) = _handler (this w1)))
  /\ (forall q b q' b' : list DragCall,
        q ++ b = q' ++ b' ->
        net q = 0 -> net q' = 0 -> block b -> block b' ->
        q = q' /\ b = b')
  /\ (forall (t : list DragCall) (w : World),
        _dragCount (this w) = 0 ->
        well_nested t = true ->
        exists w' bs r,
          drags t w = Normal tt w'
          /\ t = List.concat bs ++ r /\ Forall block bs /\ pending r
          /\ balanced_blocks t = List.length bs
          /\ exit_count (calls w')
             = (exit_count (calls w) + List.length bs)%nat)
  /\ (forall (c : DragCall) (v : World),
        exists v',
          drag c v = Normal tt v'
          /\ (0 < _dragCount (this v') ->
              calls v' = calls v
              /\ _handler (this v') = _handler (this v))).
Proof.
  split; [ | split; [ | split ] ].
  - intros p c w Hz.
    destruct (drags_run p w) as (w1 & E1 & Hn1 & _).
    destruct (drag_step c w1) as (w2 & E2 & Hn2 & Hc & Hh).
    exists w1, w2. split; [exact E1 | ]. split; [exact E2 | ].
    split.
    { rewrite drags_app, E1. cbn [drags]. unfold bind.
      rewrite E2. reflexivity. }
    rewrite completes_block_iff, net_app. cbn [net].
    rewrite Hn2, Hn1, Hz in Hc, Hh. cbn [Z.add] in Hc, Hh.
    replace (net p + (delta c + 0)) with (net p + delta c) by lia.
    split.
    + intros [-> Hnet]. cbn [leaves_to_zero] in Hc, Hh.
      apply Z.eqb_eq in Hnet. rewrite Hnet in Hc, Hh.
      split; assumption.
    + intros Hnot.
      assert (leaves_to_zero c (net p + delta c) = false) as Hf.
      { destruct c; [reflexivity | ]. cbn [leaves_to_zero].
        apply Z.eqb_neq. intros Hnet. apply Hnot. split; [reflexivity | ].
        exact Hnet. }
      rewrite Hf in Hc, Hh. rewrite app_nil_r in Hc. split; assumption.
  - exact completed_block_unique.
  - intros t w Hz Hw.
    destruct (drags_run t w) as (w' & E & _ & _ & Hx).
    destruct (well_nested_decomposes t Hw) as (bs & r & Et & Hbs & Hr).
    destruct (balanced_blocks_of_blocks bs r Hbs Hr) as [Hn _].
    rewrite <- Et in Hn.
    exists w', bs, r. repeat split; try assumption.
    rewrite Hx, Hz, <- Hn. unfold balanced_blocks.
    rewrite (blocks_are_leave_zeros 0 t Hw). reflexivity.
  - intros c v. destruct (drag_step c v) as (v' & Ev & _ & Hc & Hh).
    exists v'. split; [assumption | ]. intros Hpos.
    assert (leaves_to_zero c (_dragCount (this v')) = false) as Hf.
    { destruct c; cbn; [reflexivity | ]. apply Z.eqb_neq. lia. }
    rewrite Hf in Hc, Hh. rewrite app_nil_r in Hc. split; assumption.
Qed.

(** ** Focus and DOM recovery *)

Lemma focus_run (scrollPosition : option DraftScrollPosition) (w : World) :
  exists w',
    _focus scrollPosition w = Normal tt w'
    /\ this w' = this w
    /\ props w' = props w
    /\ scrollParentIsWindow (dom w') = scrollParentIsWindow (dom w)
    /\ editorNodeFocused (dom w') = true
    /\ scrollOffset (dom w') =
       (if scrollParentIsWindow (dom w)
        then resolved_offset scrollPosition (dom w)
        else {| x := x (scrollOnFocus (dom w));
                y := y (resolved_offset scrollPosition (dom w)) |})
    /\ calls w' =
       calls w ++
       call_focus scrollPosition ::
       (if getHasFocus (getSelection (editorState (props w))) then []
        else [ call_update
                 (forceSelection (editorState (props w))
                    (getSelection (editorState (props w))));
               call_onChange
                 (forceSelection (editorState (props w))
                    (getSelection (editorState (props w)))) ]).
Proof.
  assert (forall p : DraftScrollPosition, {| x := x p; y := y p |} = p)
    as eta by (intros [px py]; reflexivity).
  destruct scrollPosition as [given | ]; js_run; unfold resolved_offset;
  destruct (scrollParentIsWindow (dom w)) eqn:Ew;
    destruct (getHasFocus (getSelection (editorState (props w)))) eqn:Ef;
    cbn; eexists; (split; [reflexivity | ]); cbn; rewrite ?Ew;
    repeat split; try reflexivity; try apply eta;
    app_norm; reflexivity.
Qed.

Lemma update_calls_app (l1 l2 : list Call) :
  update_calls (l1 ++ l2) = update_calls l1 ++ update_calls l2.
Proof. unfold update_calls. apply flat_map_app. Qed.

(** C7 (amended).  After every call to [focus(scrollPosition?)] the
    vertical offset of the scroll parent is that of the resolved offset
    (the [scrollPosition] given, or else the offset read before the focus
    request), whatever the browser scrolled on focus; and when the scroll
    parent is the window, which gets [window.scrollTo(x, y)], the whole
    offset, horizontal and vertical, is the resolved one. *)
Theorem focus_restores_scroll
    (scrollPosition : option DraftScrollPosition) (w : World) :
  exists w',
    _focus scrollPosition w = Normal tt w'
    /\ y (scrollOffset (dom w'))
       = y (resolved_offset scrollPosition (dom w))
    /\ (scrollParentIsWindow (dom w) = true ->
        scrollOffset (dom w') = resolved_offset scrollPosition (dom w)).
Proof.
  destruct (focus_run scrollPosition w) as (w' & E & _ & _ & _ & _ & Hs & _).
  exists w'. split; [exact E | ]. rewrite Hs.
  destruct (scrollParentIsWindow (dom w)); split;
    try reflexivity; discriminate.
Qed.

Lemma restoreEditorDOM_run (scrollPosition : option DraftScrollPosition)
    (w : World) :
  exists committed,
    _restoreEditorDOM scrollPosition w = _focus scrollPosition committed
    /\ containerKey (state (this committed))
       = containerKey (state (this w)) + 1
    /\ dom committed = remount (dom w)
    /\ _blockSelectEvents (this committed) = false
    /\ props committed = props w
    /\ calls committed = calls w.
Proof.
  unfold _restoreEditorDOM, setState, componentWillUpdate,
    componentDidUpdate, bind, read, write, ret. cbn.
  destruct (containerKey (state (this w))
            =? containerKey (state (this w)) + 1) eqn:E;
    [ apply Z.eqb_eq in E; lia | ].
  exists (with_this (set_blockSelectEvents false)
            (with_dom remount
               (with_this
                  (set_state
                     {| containerKey := containerKey (state (this w)) + 1 |})
                  (with_this (set_blockSelectEvents true) w)))).
  repeat split.
Qed.

Lemma perform_key (o : Operation) (w : World) :
  exists w',
    perform o w = Normal tt w'
    /\ containerKey (state (this w'))
       = containerKey (state (this w))
         + (if is_restoreEditorDOM o then 1 else 0).
Proof.
  destruct o; cbn [perform is_restoreEditorDOM];
    try (js_run; eexists; split; [reflexivity | cbn; lia]).
  - destruct (focus_run scrollPosition w) as (w' & E & Ht & _).
    exists w'. rewrite Ht. split; [exact E | lia].
  - destruct (restoreEditorDOM_run scrollPosition w)
      as (w1 & E1 & Hk & _).
    destruct (focus_run scrollPosition w1) as (w' & E & Ht & _).
    exists w'. rewrite E1, Ht, Hk. split; [exact E | reflexivity].
  - destruct (drag_step DragLeave w) as (w' & E & _).
    exists w'. split; [exact E | ].
    revert E. js_run.
    destruct (_dragCount (this w) - 1 =? 0); intros [= <-]; cbn; lia.
  - js_run. destruct isIE; eexists; (split; [reflexivity | cbn; lia]).
Qed.

End Properties.

(** * Properties of the rest of the class *)

Section MoreProperties.

Context `{C : Collaborators} `{H : @Handlers C} `{R : @Rendering C}.

Ltac js_compute :=
  unfold perform, _restoreEditorDOM, setState, _focus, _blur,
    componentDidMount, componentWillUpdate, componentDidUpdate,
    _onDragLeave, _onDragEnter, _exitCurrentMode, _setMode, _update,
    onChange, _setRenderGuard, _removeRenderGuard, _setClipboard,
    _getClipboard, editorNode_focus, editorNode_blur, window_scrollTo,
    Scroll_setTop, getScrollPosition, called, bind, ret, read, write,
    with_this, with_dom, with_call in *;
  cbn.

Ltac app_norm_more :=
  repeat first
    [ rewrite <- app_assoc | rewrite <- app_comm_cons | progress cbn [app] ].

Ltac trace_norm :=
  unfold update_calls, onChange_calls;
  repeat rewrite flat_map_app; cbn [flat_map app];
  repeat rewrite app_nil_r.

(** What one operation does to each instance field, to the props and to
    the trace of [update] and [onChange] calls. *)
Lemma perform_fields (o : Operation) (w : World) :
  exists w',
    perform o w = Normal tt w'
    /\ _clipboard (this w') = clipboard_step o (_clipboard (this w))
    /\ _guardAgainstRender (this w')
       = guard_step o (_guardAgainstRender (this w))
    /\ _blockSelectEvents (this w')
       = blocked_step o (_blockSelectEvents (this w))
    /\ _dragCount (this w') = _dragCount (this w) + drag_delta o
    /\ props w' = props w
    /\ update_calls (calls w')
       = update_calls (calls w) ++ updates_by (editorState (props w)) o
    /\ onChange_calls (calls w')
       = onChange_calls (calls w) ++ updates_by (editorState (props w)) o.
Proof.
  destruct o as [sp | | mode | | sp | | | clipboard | | es | | | | | ];
    try destruct sp as [given | ];
    destruct (getHasFocus (getSelection (editorState (props w)))) eqn:Ef;
    js_compute;
    repeat (cbn in *; rewrite ?Ef in *;
            match goal with
            | |- context [if ?b then _ else _] => destruct b eqn:?
            end);
    cbn in *; try discriminate;
    eexists; (split; [reflexivity | ]); cbn;
    repeat split; try reflexivity; try lia; trace_norm; try reflexivity.
Qed.

Lemma perform_all_fields (os : list Operation) (w : World) :
  exists w',
    perform_all os w = Normal tt w'
    /\ _clipboard (this w') = clipboard_after (_clipboard (this w)) os
    /\ _guardAgainstRender (this w')
       = guard_after (_guardAgainstRender (this w)) os
    /\ _blockSelectEvents (this w')
       = blocked_after (_blockSelectEvents (this w)) os
    /\ _dragCount (this w') = _dragCount (this w) + drag_net os
    /\ props w' = props w
    /\ update_calls (calls w')
       = update_calls (calls w)
         ++ flat_map (updates_by (editorState (props w))) os
    /\ onChange_calls (calls w')
       = onChange_calls (calls w)
         ++ flat_map (updates_by (editorState (props w))) os.
Proof.
  revert w. induction os as [ | o os IH]; intros w.
  - exists w. cbn. rewrite !app_nil_r.
    repeat split; try reflexivity. lia.
  - destruct (perform_fields o w)
      as (w1 & E1 & Hc & Hg & Hb & Hd & Hp & Hu & Hn).
    destruct (IH w1) as (w' & E & Hc' & Hg' & Hb' & Hd' & Hp' & Hu' & Hn').
    exists w'. cbn [perform_all]. unfold bind. rewrite E1.
    split; [exact E | ].
    cbn [clipboard_after guard_after blocked_after drag_net flat_map].
    rewrite Hc', Hg', Hb', Hd', Hp', Hu', Hn', Hc, Hg, Hb, Hd, Hp, Hu, Hn.
    rewrite <- !app_assoc.
    repeat split; try reflexivity. lia.
Qed.

Lemma perform_all_app (os1 os2 : list Operation) (w : World) :
  perform_all (os1 ++ os2) w =
  match perform_all os1 w with
  | Normal _ w' => perform_all os2 w'
  | Throw exn w' => Throw exn w'
  end.
Proof.
  revert w. induction os1 as [ | o os1 IH]; intros w; cbn [perform_all app].
  - reflexivity.
  - unfold bind. destruct (perform o w); [apply IH | reflexivity].
Qed.



Lemma blocked_after_untouched (os : list Operation) (blocked : bool) :
  Forall (fun o => sets_blocked o = None) os ->
  blocked_after blocked os = blocked.
Proof.
  intros Hno. revert blocked.
  induction Hno as [ | o os Ho _ IH]; intros blocked; [reflexivity | ].
  cbn [blocked_after]. rewrite IH.
  destruct o; try reflexivity; discriminate.
Qed.



(** X3.  Among the operations that reach neither React nor the focus of
    the document, [_blockSelectEvents] is written by the two update hooks
    only: it is true after [componentWillUpdate] and false after
    [componentDidUpdate], whatever ran before, and stays so through mode
    changes, drag tracking, clipboard staging, the render guard and
    [update]. *)
Theorem select_events_blocked_during_update
    (before later : list Operation) (o : Operation) (b : bool) (w : World) :
  Forall (fun o' => reaches_platform o' = false) (before ++ later) ->
  update_hook o = Some b ->
  Forall (fun o' => update_hook o' = None) later ->
  exists w',
    perform_all (before ++ o :: later) w = Normal tt w'
    /\ _blockSelectEvents (this w') = b.
Proof.
  intros Hplain Ho Hno. rewrite perform_all_app.
  destruct (perform_all_fields before w) as (w1 & -> & _).
  destruct (perform_all_fields (o :: later) w1)
    as (w' & Ep & _ & _ & Hb & _).
  exists w'. split; [exact Ep | ]. rewrite Hb. cbn [blocked_after].
  rewrite (blocked_after_untouched later).
  - destruct o; try discriminate; injection Ho as <-; reflexivity.
  - apply Forall_app in Hplain as (_ & Hlater).
    rewrite Forall_forall in *. intros o' Hin.
    specialize (Hno o' Hin). specialize (Hlater o' Hin).
    destruct o'; try reflexivity; discriminate.
Qed.


(** X5.  Over any sequence of operations that reach neither React nor the
    focus of the document, [update] is called by the [update] operations
    and by nothing else (not by mode changes, drag tracking, clipboard
    staging, the render guard or the lifecycle hooks), and
    [props.onChange] is called once for each [update] call, with the
    same editor state and in the same order. *)
Theorem onChange_once_per_update (os : list Operation) (w : World) :
  Forall (fun o => reaches_platform o = false) os ->
  exists w',
    perform_all os w = Normal tt w'
    /\ props w' = props w
    /\ update_calls (calls w')
       = update_calls (calls w) ++ updates_requested os
    /\ onChange_calls (calls w')
       = onChange_calls (calls w) ++ updates_requested os
    /\ (onChange_calls (calls w) = update_calls (calls w) ->
        onChange_calls (calls w') = update_calls (calls w')).
Proof.
  intros Hplain.
  assert (flat_map (updates_by (editorState (props w))) os
          = updates_requested os) as Hreq.
  { unfold updates_requested.
    induction Hplain as [ | o os Ho _ IH]; [reflexivity | ].
    cbn [flat_map]. rewrite IH.
    destruct o; try reflexivity; discriminate Ho. }
  destruct (perform_all_fields os w)
    as (w' & Ep & _ & _ & _ & _ & Hp & Hu & Hn).
  rewrite Hreq in Hu, Hn.
  exists w'. repeat split; try assumption.
  intros Heq. rewrite Hu, Hn, Heq. reflexivity.
Qed.




(** X7.  Between construction and mount no handler is active: on the
    state the constructor leaves, every event callback built by
    [_buildHandler] returns normally and changes nothing, for every event
    kind, every event, every set of handler modules and also when the
    editor is editable. *)
Theorem no_dispatch_before_mount
    (p : DraftEditorProps) (d : Dom) (eventName : EventName)
    (e : SyntheticEvent) :
  _buildHandler eventName e (DraftEditor_constructor p d)
  = Normal tt (DraftEditor_constructor p d).
Proof.
  rewrite buildHandler_run. cbn.
  destruct (readOnly p); reflexivity.
Qed.

(** X8.  [componentDidMount] makes the edit handler the active one,
    whatever was active before, and calls
    [document.execCommand('AutoUrlDetect', ...)] exactly when the browser
    is IE; it leaves every other instance field, the props and the
    document as they were.  From then on an editable editor hands each
    event to the edit handler's operation of the same name. *)
Theorem componentDidMount_activates_edit_handler (w : World) :
  exists w',
    componentDidMount w = Normal tt w'
    /\ this w' = set_handler
                   (value (handler_module DraftEditorEditHandler)) (this w)
    /\ props w' = props w
    /\ dom w' = dom w
    /\ calls w'
       = calls w ++ call_setMode "edit"
           :: (if isIE then [call_execCommand "AutoUrlDetect"] else [])
    /\ forall (eventName : EventName) (e : SyntheticEvent) (f : Method),
         readOnly (props w) = false ->
         member DraftEditorEditHandler eventName = Some f ->
         _buildHandler eventName e w' = f the_editor e w'.
Proof.
  assert (exists w',
             componentDidMount w = Normal tt w'
             /\ this w' = set_handler
                            (value (handler_module DraftEditorEditHandler))
                            (this w)
             /\ props w' = props w
             /\ dom w' = dom w
             /\ calls w'
                = calls w ++ call_setMode "edit"
                    :: (if isIE then [call_execCommand "AutoUrlDetect"]
                        else [])) as (w' & E & Ht & Hp & Hd & Hc).
  { js_compute.
    destruct isIE; eexists; (split; [reflexivity | ]); cbn;
      repeat split; try reflexivity; app_norm_more; reflexivity. }
  exists w'. repeat split; try assumption.
  intros eventName e f Hro Hf. rewrite buildHandler_run, Hp, Hro, Ht.
  cbn. rewrite Hf. reflexivity.
Qed.

(** ** Rendering *)

Lemma renderPlaceholder_run (rp : RenderProps) (w : World) :
  exists shown,
    _renderPlaceholder rp w = Normal shown w
    /\ (forall el, shown = Some el ->
          placeholder rp = value (placeholder_text el)
          /\ placeholder_text el <> ""
          /\ placeholder_editorState el = editorState (props w)
          /\ placeholder_textAlignment el = textAlignment rp
          /\ isInCompositionMode (editorState (props w)) = false
          /\ hasText (editorState (props w)) = false)
    /\ (shown = None ->
          truthy (placeholder rp) = false
          \/ isInCompositionMode (editorState (props w)) = true
          \/ hasText (editorState (props w)) = true).
Proof.
  unfold _renderPlaceholder, bind, read, ret, nullthrows, throw. cbn.
  destruct (placeholder rp) as [ | | text]; cbn;
    try (eexists; split; [reflexivity | ]; split;
         [intros el; discriminate | intros _; left; reflexivity]).
  destruct (String.eqb_spec text "") as [-> | Hne]; cbn;
    [ eexists; split; [reflexivity | ]; split;
      [intros el; discriminate | intros _; left; reflexivity] | ].
  destruct (isInCompositionMode (editorState (props w))); cbn;
    [ eexists; split; [reflexivity | ]; split;
      [intros el; discriminate | intros _; right; left; reflexivity] | ].
  destruct (hasText (editorState (props w))); cbn;
    [ eexists; split; [reflexivity | ]; split;
      [intros el; discriminate | intros _; right; right; reflexivity] | ].
  eexists; split; [reflexivity | ]; split; [ | discriminate ].
  intros el [= <-]. cbn. repeat split; try reflexivity. exact Hne.
Qed.

(** What [render] returns, when it returns. *)
Lemma render_inv (rp : RenderProps) (w w' : World) (el : RootDiv) :
  render rp w = Normal el w' ->
  w' = w
  /\ _renderPlaceholder rp w = Normal (root_placeholder el) w
  /\ container_key el
     = ("editor" ++ Number_toString (containerKey (state (this w))))%string
  /\ contentEditable (content el) = negb (readOnly (props w))
  /\ listeners (content el) = listener
  /\ role_attribute (content el)
     = (if readOnly (props w) then null
        else if truthy (role rp) then role rp else value "textbox")
  /\ title (content el)
     = (if hasText (editorState (props w)) then null else placeholder rp)
  /\ (readOnly (props w) = true ->
      aria_activedescendant (content el) = null
      /\ aria_autocomplete (content el) = null
      /\ aria_expanded (content el) = null
      /\ aria_haspopup (content el) = null
      /\ aria_owns (content el) = null)
  /\ aria_describedby (content el) = ariaDescribedBy rp
  /\ aria_label (content el) = ariaLabel rp
  /\ blockRendererFn rp = value (contents_blockRendererFn (contents (content el)))
  /\ blockStyleFn rp = value (contents_blockStyleFn (contents (content el))).
Proof.
  unfold render. unfold bind at 1. unfold read at 1.
  unfold bind at 1.
  destruct (renderPlaceholder_run rp w) as (shown & -> & _).
  unfold bind, read, ret, nullthrows, throw.
  destruct (blockRendererFn rp) as [ | | renderer]; try discriminate.
  destruct (blockStyleFn rp) as [ | | styler]; try discriminate.
  intros [= <- <-]. cbn.
  repeat split; try reflexivity;
    match goal with Hro : readOnly _ = true |- _ => rewrite Hro end;
    reflexivity.
Qed.

Lemma render_throw_inv (rp : RenderProps) (w w' : World) (exn : string) :
  render rp w = Throw exn w' ->
  w' = w
  /\ ((forall renderer, blockRendererFn rp <> value renderer)
      \/ (forall styler, blockStyleFn rp <> value styler)).
Proof.
  unfold render. unfold bind at 1. unfold read at 1.
  unfold bind at 1.
  destruct (renderPlaceholder_run rp w) as (shown & -> & _).
  unfold bind, read, ret, nullthrows, throw.
  destruct (blockRendererFn rp) as [ | | renderer]; cbn;
    try (intros [= _ <-]; split; [reflexivity | left; discriminate]).
  destruct (blockStyleFn rp) as [ | | styler]; cbn;
    try (intros [= _ <-]; split; [reflexivity | right; discriminate]).
  discriminate.
Qed.

Lemma render_total (rp : RenderProps) (w : World) :
  (forall renderer styler,
      blockRendererFn rp = value renderer ->
      blockStyleFn rp = value styler ->
      exists el, render rp w = Normal el w)
  /\ ((forall renderer, blockRendererFn rp <> value renderer)
      \/ (forall styler, blockStyleFn rp <> value styler) ->
      exists exn, render rp w = Throw exn w).
Proof.
  destruct (render rp w) as [el w' | exn w'] eqn:E.
  - destruct (render_inv rp w w' el E)
      as (-> & _ & _ & _ & _ & _ & _ & _ & _ & _ & Hr & Hs).
    split.
    + intros _ _ _ _. exists el. reflexivity.
    + intros [Hno | Hno]; exfalso.
      * exact (Hno _ Hr).
      * exact (Hno _ Hs).
  - destruct (render_throw_inv rp w w' exn E) as (-> & Hno).
    split.
    + intros renderer styler Hr Hs. exfalso.
      destruct Hno as [Hno | Hno]; [exact (Hno _ Hr) | exact (Hno _ Hs)].
    + intros _. exists exn. reflexivity.
Qed.

(** X10.  [render] reads the component and changes nothing.  It throws
    (through [nullthrows]) exactly when [blockRendererFn] or
    [blockStyleFn] is [null] or [undefined] in the props it is given; as
    [defaultProps] replaces only [undefined], a host that leaves these
    props out gets an element, and one that passes [null] for either makes
    [render] throw. *)
Theorem render_throws_iff_null_function_prop
    (given : RenderProps) (w : World) :
  (forall rp : RenderProps, world_of (render rp w) = w)
  /\ ((exists exn, render (with_defaultProps given) w = Throw exn w)
      <-> blockRendererFn given = null \/ blockStyleFn given = null)
  /\ ((exists el, render (with_defaultProps given) w = Normal el w)
      <-> blockRendererFn given <> null /\ blockStyleFn given <> null).
Proof.
  split; [ | split ].
  - intros rp. destruct (render rp w) as [el w' | exn w'] eqn:E; cbn.
    + apply (render_inv rp w w' el E).
    + apply (render_throw_inv rp w w' exn E).
  - split.
    + intros (exn & E).
      destruct (render_throw_inv _ w w exn E) as (_ & [Hno | Hno]);
        cbn in Hno.
      * left. destruct (blockRendererFn given) as [ | | renderer];
          [ exfalso; exact (Hno _ eq_refl) | reflexivity
          | exfalso; exact (Hno _ eq_refl) ].
      * right. destruct (blockStyleFn given) as [ | | styler];
          [ exfalso; exact (Hno _ eq_refl) | reflexivity
          | exfalso; exact (Hno _ eq_refl) ].
    + intros Hnull.
      apply (proj2 (render_total (with_defaultProps given) w)). cbn.
      destruct Hnull as [-> | ->]; [left | right]; discriminate.
  - split.
    + intros (el & E).
      destruct (render_inv _ w w el E)
        as (_ & _ & _ & _ & _ & _ & _ & _ & _ & _ & Hr & Hs).
      cbn in Hr, Hs. split; intros Hnull; rewrite Hnull in *; discriminate.
    + intros [Hr Hs].
      destruct (blockRendererFn given) as [ | | renderer] eqn:Er;
        [ | exfalso; apply Hr; reflexivity | ];
        (destruct (blockStyleFn given) as [ | | styler] eqn:Es;
         [ | exfalso; apply Hs; reflexivity | ]);
        eapply (proj1 (render_total (with_defaultProps given) w));
        cbn; rewrite ?Er, ?Es; reflexivity.
Qed.

(** X11.  In a read-only editor, the element [render] returns is not
    [contentEditable], has no [role] and none of the attributes
    [aria-activedescendant], [aria-autocomplete], [aria-expanded],
    [aria-haspopup], [aria-owns], and every listener it attaches other
    than those of [dragenter] and [dragleave] does nothing.  These two are
    attached without the read-only test: they still count, and a leave
    that brings the counter back to zero calls [exitCurrentMode] and makes
    the edit handler active in the read-only editor too. *)
Theorem readOnly_gates_all_but_drag
    (rp : RenderProps) (w : World) (el : RootDiv) :
  readOnly (props w) = true ->
  render rp w = Normal el w ->
  contentEditable (content el) = false
  /\ role_attribute (content el) = null
  /\ aria_activedescendant (content el) = null
  /\ aria_autocomplete (content el) = null
  /\ aria_expanded (content el) = null
  /\ aria_haspopup (content el) = null
  /\ aria_owns (content el) = null
  /\ (forall (a : Attr.t) (e : SyntheticEvent),
        a <> Attr.onDragEnter -> a <> Attr.onDragLeave ->
        listeners (content el) a e w = Normal tt w)
  /\ (forall e e' : SyntheticEvent,
        exists w1 w2,
          listeners (content el) Attr.onDragEnter e w = Normal tt w1
          /\ _dragCount (this w1) = _dragCount (this w) + 1
          /\ listeners (content el) Attr.onDragLeave e' w1 = Normal tt w2
          /\ _dragCount (this w2) = _dragCount (this w)
          /\ readOnly (props w2) = true
          /\ (_dragCount (this w) = 0 ->
              _handler (this w2)
              = value (handler_module DraftEditorEditHandler)
              /\ exit_count (calls w2) = S (exit_count (calls w)))).
Proof.
  intros Hro E.
  destruct (render_inv rp w w el E)
    as (_ & _ & _ & Hce & Hl & Hrole & _ & Haria & _).
  destruct (Haria Hro) as (A1 & A2 & A3 & A4 & A5).
  rewrite Hce, Hrole, Hl, Hro.
  repeat split; try assumption.
  - intros a e Hne Hnl.
    destruct a; cbn [listener]; try (exfalso; congruence);
      rewrite buildHandler_run, Hro; reflexivity.
  - intros e e'. cbn [listener].
    destruct (drag_step DragEnter w) as (w1 & E1 & Hn1 & Hc1 & Hh1).
    destruct (drag_step DragLeave w1) as (w2 & E2 & Hn2 & Hc2 & Hh2).
    destruct (perform_fields op_onDragEnter w) as (v1 & F1 & _ & _ & _ & _ & Hp1 & _).
    destruct (perform_fields op_onDragLeave w1) as (v2 & F2 & _ & _ & _ & _ & Hp2 & _).
    cbn [drag perform delta] in *.
    rewrite E1 in F1. injection F1 as <-.
    rewrite E2 in F2. injection F2 as <-.
    exists w1, w2. rewrite Hp2, Hp1.
    split; [exact E1 | ]. split; [exact Hn1 | ].
    split; [exact E2 | ]. split; [lia | ]. split; [exact Hro | ].
    intros Hz. split.
    + rewrite Hh2, Hn2, Hn1, Hz. reflexivity.
    + rewrite Hc2, Hc1, Hn2, Hn1, Hz. cbn.
      rewrite app_nil_r, exit_count_app. cbn. lia.
Qed.

(** X12.  The placeholder element and the [title] attribute go together:
    when [render] shows the placeholder element, its text is the
    non-empty [placeholder] prop, the content has no text, no composition
    is under way and [title] carries the same text; once the content has
    text neither is shown ([title] is [null]); and during a composition on
    empty content the element is hidden while [title] still carries the
    placeholder.  [_renderPlaceholder] itself never throws. *)
Theorem placeholder_and_title (rp : RenderProps) (w : World) (el : RootDiv) :
  render rp w = Normal el w ->
  (forall shown,
      root_placeholder el = Some shown ->
      placeholder rp = value (placeholder_text shown)
      /\ placeholder_text shown <> ""
      /\ title (content el) = value (placeholder_text shown)
      /\ hasText (editorState (props w)) = false
      /\ isInCompositionMode (editorState (props w)) = false)
  /\ (hasText (editorState (props w)) = true ->
      root_placeholder el = None /\ title (content el) = null)
  /\ (hasText (editorState (props w)) = false ->
      isInCompositionMode (editorState (props w)) = true ->
      root_placeholder el = None /\ title (content el) = placeholder rp)
  /\ (hasText (editorState (props w)) = false ->
      isInCompositionMode (editorState (props w)) = false ->
      truthy (placeholder rp) = true ->
      exists shown, root_placeholder el = Some shown)
  /\ (forall rp' w', exists shown, _renderPlaceholder rp' w' = Normal shown w').
Proof.
  intros E.
  destruct (render_inv rp w w el E) as (_ & Hp & _ & _ & _ & _ & Ht & _).
  destruct (renderPlaceholder_run rp w) as (shown & Es & Hsome & Hnone).
  rewrite Es in Hp. injection Hp as Hshown. subst shown.
  split; [ | split; [ | split; [ | split ] ] ].
  - intros shown Hs.
    destruct (Hsome shown Hs) as (Hph & Hne & _ & _ & Hcomp & Htext).
    rewrite Ht, Htext, Hph. repeat split; assumption.
  - intros Htext. rewrite Ht, Htext. split; [ | reflexivity ].
    destruct (root_placeholder el) as [shown | ]; [ | reflexivity ].
    destruct (Hsome shown eq_refl) as (_ & _ & _ & _ & _ & Hno).
    congruence.
  - intros Htext Hcomp. rewrite Ht, Htext. split; [ | reflexivity ].
    destruct (root_placeholder el) as [shown | ]; [ | reflexivity ].
    destruct (Hsome shown eq_refl) as (_ & _ & _ & _ & Hno & _).
    congruence.
  - intros Htext Hcomp Htruthy.
    destruct (root_placeholder el) as [shown | ]; [exists shown; reflexivity | ].
    destruct (Hnone eq_refl) as [Hf | [Hf | Hf]]; congruence.
  - intros rp' w'.
    destruct (renderPlaceholder_run rp' w') as (shown & Es' & _).
    exists shown. exact Es'.
Qed.

(** X13.  An editable editor always gets a non-empty [role]: the [role]
    prop when it is a non-empty string, and ['textbox'] when the prop is
    [undefined], [null] or the empty string; and it is [contentEditable]. *)
Theorem editable_role_defaults_to_textbox
    (rp : RenderProps) (w : World) (el : RootDiv) :
  readOnly (props w) = false ->
  render rp w = Normal el w ->
  contentEditable (content el) = true
  /\ exists s,
       role_attribute (content el) = value s
       /\ s <> ""
       /\ (role rp = value s
           \/ (s = "textbox"
               /\ (role rp = undefined \/ role rp = null
                   \/ role rp = value ""))).
Proof.
  intros Hro E.
  destruct (render_inv rp w w el E) as (_ & _ & _ & Hce & _ & Hrole & _).
  rewrite Hce, Hrole, Hro. split; [reflexivity | ].
  destruct (role rp) as [ | | given]; cbn.
  - exists "textbox". repeat split; [discriminate | right; auto].
  - exists "textbox". repeat split; [discriminate | right; auto].
  - destruct (String.eqb_spec given "") as [-> | Hne]; cbn.
    + exists "textbox". repeat split; [discriminate | right; auto].
    + exists given. repeat split; [exact Hne | left; reflexivity].
Qed.

Lemma Number_toString_inj (n m : Z) :
  Number_toString n = Number_toString m -> n = m.
Proof.
  unfold Number_toString. intros E.
  apply DecimalZ.to_int_inj.
  assert (forall z, Z.to_int z <> Decimal.Pos Decimal.Nil
                    /\ Z.to_int z <> Decimal.Neg Decimal.Nil) as Hnn.
  { intros [ | q | q]; cbn; split; try discriminate;
      intros [= Hq]; exact (DecimalPos.Unsigned.to_uint_nonnil q Hq). }
  apply (f_equal NilZero.int_of_string) in E.
  rewrite !NilZero.isi in E by apply Hnn.
  injection E as E. exact E.
Qed.

(** X15.  The callbacks [_onMouseDown] and [_onCharacterData] are built
    in the constructor but [render] attaches neither: whatever operation a
    handler module defines under [onMouseDown] or [onCharacterData], no
    listener of the rendered element ever runs it.  Two sets of handler
    modules that agree on every other operation give listeners that
    behave the same on every event and every state. *)
Theorem listeners_never_reach_onMouseDown_onCharacterData
    (H1 H2 : @Handlers C) (a : Attr.t) (e : SyntheticEvent) (w : World) :
  (forall (h : HandlerModule) (eventName : EventName),
      eventName <> onMouseDown -> eventName <> onCharacterData ->
      @member C H1 h eventName = @member C H2 h eventName) ->
  @listener C H1 a e w = @listener C H2 a e w.
Proof.
  intros Hagree.
  destruct a; cbn [listener]; try reflexivity;
    rewrite (@buildHandler_run C H1), (@buildHandler_run C H2);
    destruct (readOnly (props w)); try reflexivity;
    destruct (_handler (this w)) as [ | | [h | name] ]; try reflexivity;
    cbn [get_member]; rewrite Hagree by discriminate; reflexivity.
Qed.

End MoreProperties.

(** * Properties on a page *)

Section PageProperties.

Context `{C : Collaborators} `{H : @Handlers C} `{E : @Events C}
        `{R : @Rendering C}.

Ltac page_unfold :=
  unfold Page._restoreEditorDOM, Page.setState, Page.batchedUpdates,
    Page.enqueueUpdate, Page._focus, Page._blur,
    Page.editorNode_focus, Page.editorNode_blur, Page.deliver,
    Page.and_then, Page.lift, Page.get, Page.put, Page.result, Page.raise
    in *.

Ltac world_unfold :=
  unfold _update, onChange, editorNode_blur, window_scrollTo, Scroll_setTop,
    getScrollPosition, componentWillUpdate, componentDidUpdate, called,
    bind, ret, read, write in *.

(** ** The focus request *)

Lemma editorNode_focus_run (p : Page.t) :
  exists answered,
    Page.editorNode_focus p
    = Page.Returns tt (Page.with_world (fun _ => answered) p)
    /\ match Page.focus_operation p with
       | Some f =>
           answered
           = with_dom Page.scroll_into_view
               (world_of (f the_editor focusEvent
                            (with_dom Page.take_focus (Page.world p))))
       | None =>
           this answered = this (Page.world p)
           /\ props answered = props (Page.world p)
           /\ calls answered = calls (Page.world p)
       end.
Proof.
  destruct p as [w m fo b q].
  unfold Page.focus_operation. page_unfold. world_unfold.
  change (listener Attr.onFocus) with (_buildHandler onFocus).
  cbn -[_buildHandler].
  destruct fo; cbn -[_buildHandler]; [ | exists w; repeat split ].
  destruct (editorNodeFocused (dom w)) eqn:Ef; cbn -[_buildHandler];
    [ eexists; split; [reflexivity | repeat split] | ].
  rewrite buildHandler_run. cbn.
  destruct (readOnly (props w)); cbn;
    [ eexists; split; [reflexivity | repeat split] | ].
  destruct (_handler (this w)) as [ | | o]; cbn;
    try (eexists; split; [reflexivity | repeat split]).
  destruct (get_member o onFocus) as [f | ]; cbn;
    eexists; split; try reflexivity; repeat split.
Qed.

Lemma Page_focus_run (scrollPosition : option DraftScrollPosition)
    (p : Page.t) :
  Page.mounted p = true ->
  exists answered w',
    Page.editorNode_focus
      (Page.with_world (with_call (call_focus scrollPosition)) p)
    = Page.Returns tt (Page.with_world (fun _ => answered) p)
    /\ Page._focus scrollPosition p
       = Page.Returns tt (Page.with_world (fun _ => w') p)
    /\ this w' = this answered
    /\ props w' = props answered
    /\ editorNodeFocused (dom w') = editorNodeFocused (dom answered)
    /\ scrollParentIsWindow (dom w') = scrollParentIsWindow (dom answered)
    /\ scrollOffset (dom w')
       = (if scrollParentIsWindow (dom (Page.world p))
          then resolved_offset scrollPosition (dom (Page.world p))
          else {| x := x (scrollOffset (dom answered));
                  y := y (resolved_offset scrollPosition
                            (dom (Page.world p))) |})
    /\ calls w'
       = calls answered
         ++ (if getHasFocus (getSelection (editorState (props (Page.world p))))
             then []
             else [ call_update
                      (forceSelection (editorState (props (Page.world p)))
                         (getSelection (editorState (props (Page.world p)))));
                    call_onChange
                      (forceSelection (editorState (props (Page.world p)))
                         (getSelection
                            (editorState (props (Page.world p))))) ]).
Proof.
  intros Hm.
  assert (forall s : DraftScrollPosition, {| x := x s; y := y s |} = s)
    as eta by (intros [sx sy]; reflexivity).
  destruct (editorNode_focus_run
              (Page.with_world (with_call (call_focus scrollPosition)) p))
    as (answered & En & _).
  exists answered.
  destruct p as [w m fo b q]. cbn in Hm. subst m.
  unfold Page._focus, Page.and_then, Page.lift, Page.get, Page.result,
    Page.with_world, called, read, write, with_call, getScrollPosition,
    resolved_offset in *.
  cbn -[Page.editorNode_focus] in *.
  destruct scrollPosition as [given | ]; cbn -[Page.editorNode_focus];
    rewrite En;
    destruct (scrollParentIsWindow (dom w)) eqn:Ew;
    destruct (getHasFocus (getSelection (editorState (props w)))) eqn:Ef;
    world_unfold; unfold with_call, with_dom; cbn;
    eexists; (split; [reflexivity | ]); (split; [reflexivity | ]); cbn;
    rewrite ?app_nil_r, <- ?app_assoc; cbn;
    repeat split; try reflexivity; try apply eta.
Qed.

Lemma editorNode_blur_run (p : Page.t) :
  exists answered,
    Page.editorNode_blur p
    = Page.Returns tt (Page.with_world (fun _ => answered) p)
    /\ (handlers_keep_state ->
        state (this answered) = state (this (Page.world p))).
Proof.
  destruct p as [w m fo b q].
  page_unfold.
  change (listener Attr.onBlur) with (_buildHandler onBlur).
  cbn -[_buildHandler editorNode_blur].
  destruct (editorNodeFocused (dom w)) eqn:Ef; cbn -[_buildHandler];
    [ | exists w; split; reflexivity ].
  eexists; split; [reflexivity | ].
  intros Hk. unfold Page.with_world. cbn -[_buildHandler].
  rewrite buildHandler_run. cbn.
  destruct (readOnly (props w)); cbn; [reflexivity | ].
  destruct (_handler (this w)) as [ | | o]; cbn; try reflexivity.
  destruct o as [h | name]; cbn; [ | reflexivity ].
  destruct (member h onBlur) as [f | ] eqn:Ef'; cbn; [ | reflexivity ].
  rewrite (Hk h onBlur f Ef'). reflexivity.
Qed.

Lemma focus_operation_keeps_state (p : Page.t) (f : Method) :
  handlers_keep_state ->
  Page.focus_operation p = Some f ->
  forall (r : Receiver) (e : SyntheticEvent) (w : World),
    state (this (world_of (f r e w))) = state (this w).
Proof.
  intros Hk. unfold Page.focus_operation.
  destruct (_ && _); [ | discriminate ].
  destruct (_handler (this (Page.world p))) as [ | | [h | name]];
    try discriminate.
  cbn. intros Hf. exact (Hk h onFocus f Hf).
Qed.

Lemma Page_focus_keeps_state (scrollPosition : option DraftScrollPosition)
    (p : Page.t) :
  handlers_keep_state ->
  state (this (Page.world
                 (Page.page_of (Page._focus scrollPosition p))))
  = state (this (Page.world p)).
Proof.
  intros Hk. destruct (Page.mounted p) eqn:Hm.
  - destruct (Page_focus_run scrollPosition p Hm)
      as (answered & w' & En & -> & Ht & _).
    cbn. rewrite Ht.
    destruct (editorNode_focus_run
                (Page.with_world (with_call (call_focus scrollPosition)) p))
      as (answered' & En' & Hop).
    rewrite En in En'. injection En' as <-.
    destruct (Page.focus_operation
                (Page.with_world (with_call (call_focus scrollPosition)) p))
      as [f | ] eqn:Ef.
    + rewrite Hop. cbn.
      rewrite (focus_operation_keeps_state _ f Hk Ef). reflexivity.
    + destruct Hop as (-> & _). reflexivity.
  - unfold Page._focus, Page.and_then, Page.lift, Page.get, Page.raise,
      called, read, write.
    cbn. rewrite Hm. reflexivity.
Qed.

Lemma Page_focus_page (scrollPosition : option DraftScrollPosition)
    (p : Page.t) :
  exists w',
    Page.page_of (Page._focus scrollPosition p)
    = Page.with_world (fun _ => w') p.
Proof.
  destruct (Page.mounted p) eqn:Hm.
  - destruct (Page_focus_run scrollPosition p Hm)
      as (answered & w' & _ & -> & _).
    exists w'. reflexivity.
  - unfold Page._focus, Page.and_then, Page.lift, Page.get, Page.raise,
      called, read, write.
    cbn. rewrite Hm. eexists. reflexivity.
Qed.

(** With no [onFocus] operation within reach of the request, the request
    and [_focus] on a page whose node can take the focus are the ones
    above, run on the world of the page, as long as the scroll into view
    does not depend on which node holds the focus. *)
Lemma editorNode_focus_agrees (p : Page.t) :
  Page.focusable p = true ->
  Page.focus_operation p = None ->
  scrollOnFocus (Page.take_focus (dom (Page.world p)))
  = scrollOnFocus (dom (Page.world p)) ->
  Page.editorNode_focus p
  = Page.Returns tt
      (Page.with_world (fun _ => world_of (editorNode_focus (Page.world p)))
         p).
Proof.
  destruct p as [w m fo b q]. cbn [Page.focusable Page.world]. intros ->.
  unfold Page.focus_operation. page_unfold. world_unfold.
  unfold editorNode_focus, write, with_dom, Page.with_world,
    Page.take_focus, Page.scroll_into_view.
  change (listener Attr.onFocus) with (_buildHandler onFocus).
  cbn -[_buildHandler].
  destruct (editorNodeFocused (dom w)) eqn:Ef; cbn -[_buildHandler];
    [ intros _ _; rewrite Ef; reflexivity | ].
  rewrite buildHandler_run. cbn.
  destruct (readOnly (props w)); cbn;
    [ intros _ ->; reflexivity | ].
  destruct (_handler (this w)) as [ | | [h | name]]; cbn;
    try (intros _ ->; reflexivity).
  destruct (member h onFocus) as [f | ]; cbn;
    [ intros Hsome; discriminate Hsome | intros _ ->; reflexivity ].
Qed.

Lemma Page_focus_agrees (scrollPosition : option DraftScrollPosition)
    (p : Page.t) :
  Page.mounted p = true ->
  Page.focusable p = true ->
  Page.focus_operation p = None ->
  scrollOnFocus (Page.take_focus (dom (Page.world p)))
  = scrollOnFocus (dom (Page.world p)) ->
  Page._focus scrollPosition p
  = Page.Returns tt
      (Page.with_world
         (fun _ => world_of (_focus scrollPosition (Page.world p))) p).
Proof.
  intros Hm Hfo Hq Hscroll.
  pose proof (editorNode_focus_agrees
                (Page.with_world (with_call (call_focus scrollPosition)) p)
                Hfo Hq Hscroll) as En.
  destruct p as [w m fo b q]. cbn in Hm. subst m.
  unfold Page._focus, _focus, Page.and_then, Page.lift, Page.get,
    Page.result, Page.with_world, bind, called, read, write, with_call,
    getScrollPosition in *.
  cbn -[Page.editorNode_focus editorNode_focus] in *.
  destruct scrollPosition as [given | ];
    cbn -[Page.editorNode_focus editorNode_focus];
    rewrite En;
    unfold editorNode_focus, write;
    destruct (scrollParentIsWindow (dom w));
    destruct (getHasFocus (getSelection (editorState (props w))));
    reflexivity.
Qed.


(** ** React's queue *)

Lemma flushBatchedUpdates_run (p : Page.t) (u : Page.Update)
    (us : list Page.Update) :
  Page.pendingUpdates p = u :: us ->
  Page.flushBatchedUpdates p
  = Page.callbacks (u :: us)
      (Page.committed (Page.partialState (last us u)) p).
Proof.
  intros Hq. unfold Page.flushBatchedUpdates. rewrite Hq.
  unfold Page.and_then, Page.lift, Page.put, Page.committed,
    Page.set_pending, Page.with_world.
  world_unfold. cbn -[Page.callbacks last].
  destruct (containerKey (state (this (Page.world p)))
            =? containerKey (Page.partialState (last us u)));
    reflexivity.
Qed.

Lemma callbacks_requests (key : Z)
    (sps : list (option DraftScrollPosition)) (p : Page.t) :
  Page.callbacks (Page.requests key sps) p = Page.focus_all sps p.
Proof.
  revert p. induction sps as [ | sp sps IH]; intros p; [reflexivity | ].
  cbn [Page.requests map Page.callbacks Page.focus_all
       Page.callback_scrollPosition].
  unfold Page.and_then.
  destruct (Page._focus sp p); [apply IH | reflexivity].
Qed.

Lemma last_requests (key : Z) (sps : list (option DraftScrollPosition))
    (sp : option DraftScrollPosition) :
  Page.partialState
    (last (Page.requests key sps)
       {| Page.partialState := {| containerKey := key + 1 |};
          Page.callback_scrollPosition := sp |})
  = {| containerKey := key + 1 |}.
Proof.
  revert sp. induction sps as [ | sp' sps IH]; intros sp; [reflexivity | ].
  cbn [Page.requests map last].
  destruct (map _ sps) eqn:Em; [reflexivity | ].
  rewrite <- Em. apply (IH sp).
Qed.

Lemma focus_all_run (sps : list (option DraftScrollPosition)) (p : Page.t) :
  Page.mounted p = true ->
  exists w',
    Page.focus_all sps p = Page.Returns tt (Page.with_world (fun _ => w') p)
    /\ (handlers_keep_state ->
        state (this w') = state (this (Page.world p))).
Proof.
  revert p. induction sps as [ | sp sps IH]; intros p Hm.
  - destruct p as [w m fo b q]. exists w. split; reflexivity.
  - cbn [Page.focus_all]. unfold Page.and_then.
    destruct (Page_focus_run sp p Hm) as (answered & w1 & _ & Ef & _).
    pose proof (Page_focus_keeps_state sp p) as Hs.
    rewrite Ef in *. cbn in Hs.
    destruct (IH (Page.with_world (fun _ => w1) p) Hm) as (w' & Ea & Hs').
    exists w'. split; [exact Ea | ].
    intros Hk. rewrite (Hs' Hk). cbn. apply Hs, Hk.
Qed.

Lemma restoreEditorDOM_batched (scrollPosition : option DraftScrollPosition)
    (p : Page.t) :
  Page.mounted p = true ->
  Page.isBatchingUpdates p = true ->
  Page._restoreEditorDOM scrollPosition p
  = Page.Returns tt
      (Page.set_pending
         (Page.pendingUpdates p
          ++ Page.requests (containerKey (state (this (Page.world p))))
               [scrollPosition]) p).
Proof.
  intros Hm Hb. destruct p as [w m fo b q]. cbn in Hm, Hb. subst m b.
  reflexivity.
Qed.

Lemma restoreEditorDOM_all_batched
    (sps : list (option DraftScrollPosition)) (p : Page.t) :
  Page.mounted p = true ->
  Page.isBatchingUpdates p = true ->
  Page.restoreEditorDOM_all sps p
  = Page.Returns tt
      (Page.set_pending
         (Page.pendingUpdates p
          ++ Page.requests (containerKey (state (this (Page.world p)))) sps)
         p).
Proof.
  revert p. induction sps as [ | sp sps IH]; intros p Hm Hb.
  - destruct p as [w m fo b q]. cbn. rewrite app_nil_r. reflexivity.
  - cbn [Page.restoreEditorDOM_all]. unfold Page.and_then.
    rewrite (restoreEditorDOM_batched sp p Hm Hb).
    rewrite IH by assumption.
    unfold Page.set_pending. cbn. rewrite <- app_assoc. reflexivity.
Qed.

Lemma committed_next_key (p : Page.t) :
  let next := {| containerKey := containerKey (state (this (Page.world p)))
                                 + 1 |} in
  Page.world (Page.committed next p)
  = {| this := set_blockSelectEvents false
                 (set_state next (this (Page.world p)));
       props := props (Page.world p);
       dom := remount (dom (Page.world p));
       calls := calls (Page.world p) |}.
Proof.
  cbn. destruct (Z.eqb_spec (containerKey (state (this (Page.world p))))
                  (containerKey (state (this (Page.world p))) + 1));
    [lia | reflexivity].
Qed.

Lemma restoreEditorDOM_unbatched
    (scrollPosition : option DraftScrollPosition) (p : Page.t) :
  Page.mounted p = true ->
  Page.isBatchingUpdates p = false ->
  Page.pendingUpdates p = [] ->
  exists w',
    Page._focus scrollPosition
      (Page.committed
         {| containerKey := containerKey (state (this (Page.world p))) + 1 |}
         (Page.set_batching true p))
    = Page.Returns tt
        (Page.with_world (fun _ => w')
           (Page.set_batching true p))
    /\ Page._restoreEditorDOM scrollPosition p
       = Page.Returns tt (Page.with_world (fun _ => w') p)
    /\ (handlers_keep_state ->
        containerKey (state (this w'))
        = containerKey (state (this (Page.world p))) + 1).
Proof.
  intros Hm Hb Hq.
  destruct (Page_focus_run scrollPosition
              (Page.committed
                 {| containerKey :=
                      containerKey (state (this (Page.world p))) + 1 |}
                 (Page.set_batching true p)) Hm)
    as (answered & w' & _ & Ef & _).
  pose proof (Page_focus_keeps_state scrollPosition
                (Page.committed
                   {| containerKey :=
                        containerKey (state (this (Page.world p))) + 1 |}
                   (Page.set_batching true p))) as Hs.
  rewrite Ef in Hs.
  exists w'. split; [ | split ].
  - rewrite Ef. destruct p as [w m fo b q]. cbn in Hq. subst q. reflexivity.
  - destruct p as [w m fo b q]. cbn in Hm, Hb, Hq. subst m b q.
    unfold Page._restoreEditorDOM, Page.setState, Page.batchedUpdates,
      Page.enqueueUpdate, Page.and_then, Page.lift, Page.get, Page.put,
      read.
    cbn -[Page.flushBatchedUpdates Page._focus].
    erewrite flushBatchedUpdates_run by reflexivity.
    cbn [Page.callbacks last Page.partialState Page.callback_scrollPosition
         app].
    unfold Page.and_then.
    match goal with
    | |- context [Page._focus scrollPosition ?pg] =>
        change (Page._focus scrollPosition pg)
          with (Page._focus scrollPosition
                  (Page.committed
                     {| containerKey := containerKey (state (this w)) + 1 |}
                     (Page.set_batching true
                        {| Page.world := w; Page.mounted := true;
                           Page.focusable := fo;
                           Page.isBatchingUpdates := false;
                           Page.pendingUpdates := [] |})))
    end.
    cbn [Page.world] in Ef. rewrite Ef. reflexivity.
  - intros Hk. specialize (Hs Hk). cbn [Page.page_of] in Hs.
    unfold Page.with_world in Hs at 1. cbn [Page.world] in Hs.
    rewrite Hs.
    pose proof (committed_next_key (Page.set_batching true p)) as Hc.
    cbn zeta in Hc. cbn [Page.set_batching Page.world] in Hc.
    rewrite Hc. reflexivity.
Qed.

Lemma restoreEditorDOM_batch
    (sp : option DraftScrollPosition)
    (sps : list (option DraftScrollPosition)) (p : Page.t) :
  Page.mounted p = true ->
  Page.isBatchingUpdates p = false ->
  Page.pendingUpdates p = [] ->
  exists w',
    Page.focus_all (sp :: sps)
      (Page.committed
         {| containerKey := containerKey (state (this (Page.world p))) + 1 |}
         (Page.set_batching true p))
    = Page.Returns tt
        (Page.with_world (fun _ => w') (Page.set_batching true p))
    /\ Page.batchedUpdates (Page.restoreEditorDOM_all (sp :: sps)) p
       = Page.Returns tt (Page.with_world (fun _ => w') p)
    /\ (handlers_keep_state ->
        containerKey (state (this w'))
        = containerKey (state (this (Page.world p))) + 1).
Proof.
  intros Hm Hb Hq.
  destruct (focus_all_run (sp :: sps)
              (Page.committed
                 {| containerKey :=
                      containerKey (state (this (Page.world p))) + 1 |}
                 (Page.set_batching true p)) Hm)
    as (w' & Ef & Hs).
  exists w'. split; [ | split ].
  - rewrite Ef. destruct p as [w m fo b q]. cbn in Hq. subst q. reflexivity.
  - unfold Page.batchedUpdates. rewrite Hb.
    rewrite (restoreEditorDOM_all_batched (sp :: sps)
               (Page.set_batching true p) Hm eq_refl).
    cbn [Page.set_batching Page.pendingUpdates Page.world]. rewrite Hq.
    cbn [app Page.requests map].
    erewrite flushBatchedUpdates_run by reflexivity.
    change (map _ sps)
      with (Page.requests (containerKey (state (this (Page.world p)))) sps).
    rewrite last_requests.
    match goal with
    | |- context [Page.callbacks (?u :: ?us) ?pg] =>
        change (Page.callbacks (u :: us) pg)
          with (Page.callbacks
                  (Page.requests
                     (containerKey (state (this (Page.world p))))
                     (sp :: sps)) pg)
    end.
    rewrite callbacks_requests.
    destruct p as [w m fo b q]. cbn in Hm, Hb, Hq. subst m b q.
    match goal with
    | |- context [Page.focus_all (sp :: sps) ?pg] =>
        change (Page.focus_all (sp :: sps) pg)
          with (Page.focus_all (sp :: sps)
                  (Page.committed
                     {| containerKey := containerKey (state (this w)) + 1 |}
                     (Page.set_batching true
                        {| Page.world := w; Page.mounted := true;
                           Page.focusable := fo;
                           Page.isBatchingUpdates := false;
                           Page.pendingUpdates := [] |})))
    end.
    cbn [Page.world] in Ef. rewrite Ef. reflexivity.
  - intros Hk. rewrite (Hs Hk).
    pose proof (committed_next_key (Page.set_batching true p)) as Hc.
    cbn zeta in Hc. cbn [Page.set_batching Page.world] in Hc.
    rewrite Hc. reflexivity.
Qed.

Lemma setState_unmounted (partial : State)
    (scrollPosition : option DraftScrollPosition) (p : Page.t) :
  Page.mounted p = false ->
  Page.setState partial scrollPosition p = Page.Returns tt p.
Proof.
  intros Hm. unfold Page.setState, Page.and_then, Page.get, Page.result.
  rewrite Hm. reflexivity.
Qed.

Lemma Page_perform_key (o : Operation) (p : Page.t) :
  handlers_keep_state ->
  is_restoreEditorDOM o = false ->
  containerKey (state (this (Page.world (Page.page_of (Page.perform o p)))))
  = containerKey (state (this (Page.world p))).
Proof.
  intros Hk Ho.
  destruct o; try discriminate; cbn [Page.perform];
    try (unfold Page.lift;
         match goal with
         | |- context [perform ?o (Page.world p)] =>
             destruct (perform_key o (Page.world p)) as (w' & -> & Hkey)
         end;
         cbn in *; lia).
  - rewrite (Page_focus_keeps_state scrollPosition p Hk). reflexivity.
  - unfold Page._blur, Page.and_then, Page.get, Page.raise.
    destruct (Page.mounted p); [ | reflexivity ].
    destruct (editorNode_blur_run p) as (answered & -> & Hs).
    cbn. rewrite (Hs Hk). reflexivity.
Qed.

Lemma Page_blur_run (p : Page.t) :
  Page.mounted p = true ->
  exists w',
    Page._blur p = Page.Returns tt (Page.with_world (fun _ => w') p)
    /\ (handlers_keep_state ->
        state (this w') = state (this (Page.world p))).
Proof.
  intros Hm. unfold Page._blur, Page.and_then, Page.get. rewrite Hm.
  apply editorNode_blur_run.
Qed.

Lemma Page_perform_run (o : Operation) (p : Page.t) :
  Page.mounted p = true ->
  is_restoreEditorDOM o = false ->
  exists w',
    Page.perform o p = Page.Returns tt (Page.with_world (fun _ => w') p)
    /\ (handlers_keep_state ->
        containerKey (state (this w'))
        = containerKey (state (this (Page.world p)))).
Proof.
  intros Hm Ho.
  destruct o; try discriminate; cbn [Page.perform];
    try (unfold Page.lift;
         match goal with
         | |- context [perform ?o (Page.world p)] =>
             destruct (perform_key o (Page.world p)) as (w' & -> & Hkey)
         end;
         exists w'; split; [reflexivity | ];
         intros _; cbn in Hkey; lia).
  - destruct (Page_focus_run scrollPosition p Hm)
      as (answered & w' & _ & Ef & _).
    exists w'. split; [exact Ef | ]. intros Hk.
    pose proof (Page_focus_keeps_state scrollPosition p Hk) as Hs.
    rewrite Ef in Hs. cbn in Hs. rewrite Hs. reflexivity.
  - destruct (Page_blur_run p Hm) as (w' & Eb & Hs).
    exists w'. split; [exact Eb | ]. intros Hk. rewrite (Hs Hk). reflexivity.
Qed.

(** Outside a batch every operation leaves the page outside a batch, with
    nothing queued. *)
Lemma Page_perform_unbatched (o : Operation) (p : Page.t) :
  Page.mounted p = true ->
  Page.isBatchingUpdates p = false ->
  Page.pendingUpdates p = [] ->
  exists w',
    Page.perform o p = Page.Returns tt (Page.with_world (fun _ => w') p)
    /\ (handlers_keep_state ->
        containerKey (state (this w'))
        = containerKey (state (this (Page.world p)))
          + (if is_restoreEditorDOM o then 1 else 0)).
Proof.
  intros Hm Hb Hq.
  destruct (is_restoreEditorDOM o) eqn:Ho.
  - destruct o; try discriminate. cbn [Page.perform].
    destruct (restoreEditorDOM_unbatched scrollPosition p Hm Hb Hq)
      as (w' & _ & Er & Hk).
    exists w'. split; [exact Er | exact Hk].
  - destruct (Page_perform_run o p Hm Ho) as (w' & Ep & Hk).
    exists w'. split; [exact Ep | ]. intros Hkeep. rewrite (Hk Hkeep). lia.
Qed.

Lemma Page_perform_all_unbatched (os : list Operation) (p : Page.t) :
  Page.mounted p = true ->
  Page.isBatchingUpdates p = false ->
  Page.pendingUpdates p = [] ->
  exists w',
    Page.perform_all os p
    = Page.Returns tt (Page.with_world (fun _ => w') p)
    /\ (handlers_keep_state ->
        containerKey (state (this w'))
        = containerKey (state (this (Page.world p)))
          + Z.of_nat (List.length (filter is_restoreEditorDOM os))).
Proof.
  revert p. induction os as [ | o os IH]; intros p Hm Hb Hq.
  - destruct p as [w m fo b q]. exists w. split; [reflexivity | ].
    intros _. cbn. lia.
  - cbn [Page.perform_all]. unfold Page.and_then.
    destruct (Page_perform_unbatched o p Hm Hb Hq) as (w1 & -> & Hk1).
    destruct (IH (Page.with_world (fun _ => w1) p) Hm Hb Hq)
      as (w' & Ea & Hk).
    exists w'. split; [exact Ea | ].
    intros Hkeep. rewrite (Hk Hkeep). cbn [Page.with_world Page.world].
    rewrite (Hk1 Hkeep). cbn [filter].
    destruct (is_restoreEditorDOM o); cbn [List.length]; lia.
Qed.

(** Inside a batch an operation changes the world as it does outside,
    except that [restoreEditorDOM] leaves it alone and queues its
    request. *)
Lemma Page_perform_in_batch (o : Operation) (p : Page.t) :
  Page.mounted p = true ->
  Page.isBatchingUpdates p = true ->
  exists w',
    Page.perform o p
    = Page.Returns tt
        (Page.set_pending
           (Page.pendingUpdates p
            ++ Page.requests (containerKey (state (this (Page.world p))))
                 (restore_positions [o]))
           (Page.with_world (fun _ => w') p))
    /\ (handlers_keep_state ->
        containerKey (state (this w'))
        = containerKey (state (this (Page.world p)))).
Proof.
  intros Hm Hb.
  destruct (is_restoreEditorDOM o) eqn:Ho.
  - destruct o; try discriminate. cbn [Page.perform].
    exists (Page.world p). rewrite restoreEditorDOM_batched by assumption.
    split; [ | reflexivity ].
    destruct p; reflexivity.
  - destruct (Page_perform_run o p Hm Ho) as (w' & -> & Hk).
    exists w'. split; [ | exact Hk ].
    destruct o; try discriminate; destruct p; cbn;
      rewrite app_nil_r; reflexivity.
Qed.

Lemma Page_perform_all_in_batch (os : list Operation) (p : Page.t) :
  Page.mounted p = true ->
  Page.isBatchingUpdates p = true ->
  handlers_keep_state ->
  exists w',
    Page.perform_all os p
    = Page.Returns tt
        (Page.set_pending
           (Page.pendingUpdates p
            ++ Page.requests (containerKey (state (this (Page.world p))))
                 (restore_positions os))
           (Page.with_world (fun _ => w') p))
    /\ containerKey (state (this w'))
       = containerKey (state (this (Page.world p))).
Proof.
  intros Hm Hb Hkeep. revert p Hm Hb.
  induction os as [ | o os IH]; intros p Hm Hb.
  - exists (Page.world p). split; [ | reflexivity ].
    destruct p. cbn. rewrite app_nil_r. reflexivity.
  - cbn [Page.perform_all]. unfold Page.and_then.
    destruct (Page_perform_in_batch o p Hm Hb) as (w1 & -> & Hk1).
    destruct (IH (Page.set_pending
                    (Page.pendingUpdates p
                     ++ Page.requests
                          (containerKey (state (this (Page.world p))))
                          (restore_positions [o]))
                    (Page.with_world (fun _ => w1) p)) Hm Hb)
      as (w' & -> & Hk).
    exists w'. cbn [Page.set_pending Page.with_world Page.world
                    Page.pendingUpdates] in *.
    split; [ | rewrite Hk; exact (Hk1 Hkeep) ].
    rewrite (Hk1 Hkeep).
    unfold Page.set_pending, Page.with_world. cbn.
    rewrite <- app_assoc. unfold Page.requests.
    rewrite <- map_app.
    change (restore_positions (o :: os))
      with (restore_positions [o] ++ restore_positions os).
    rewrite app_nil_r at 1. reflexivity.
Qed.

Lemma restore_positions_nil (os : list Operation) :
  restore_positions os = [] <-> existsb is_restoreEditorDOM os = false.
Proof.
  induction os as [ | o os IH]; [split; reflexivity | ].
  cbn [existsb]. unfold restore_positions in *. cbn [flat_map].
  destruct o; cbn [is_restoreEditorDOM orb app]; try exact IH.
  split; discriminate.
Qed.

(** A batch of any operations raises the key by one when it holds a
    [restoreEditorDOM] call, and leaves it otherwise. *)
Lemma batch_key (os : list Operation) (p : Page.t) :
  Page.mounted p = true ->
  Page.isBatchingUpdates p = false ->
  Page.pendingUpdates p = [] ->
  handlers_keep_state ->
  exists w',
    Page.batchedUpdates (Page.perform_all os) p
    = Page.Returns tt (Page.with_world (fun _ => w') p)
    /\ containerKey (state (this w'))
       = containerKey (state (this (Page.world p)))
         + (if existsb is_restoreEditorDOM os then 1 else 0).
Proof.
  intros Hm Hb Hq Hkeep.
  destruct (Page_perform_all_in_batch os (Page.set_batching true p)
              Hm eq_refl Hkeep) as (w1 & Ebody & Hk1).
  cbn [Page.set_batching Page.world Page.pendingUpdates] in Ebody, Hk1.
  rewrite Hq in Ebody. cbn [app] in Ebody.
  destruct (restore_positions os) as [ | sp sps] eqn:Epos;
    cbn [Page.requests map] in Ebody;
    unfold Page.batchedUpdates; rewrite Hb, Ebody.
  - apply restore_positions_nil in Epos. rewrite Epos.
    exists w1. split; [ | rewrite Hk1; lia ].
    destruct p as [w m fo b q]. cbn in Hb, Hq. subst b q. reflexivity.
  - assert (existsb is_restoreEditorDOM os = true) as Hsome.
    { destruct (existsb is_restoreEditorDOM os) eqn:Ex; [reflexivity | ].
      apply restore_positions_nil in Ex. congruence. }
    rewrite Hsome.
    erewrite flushBatchedUpdates_run by reflexivity.
    change (map _ sps)
      with (Page.requests (containerKey (state (this (Page.world p)))) sps).
    rewrite last_requests.
    match goal with
    | |- context [Page.callbacks (?u :: ?us) ?pg] =>
        change (Page.callbacks (u :: us) pg)
          with (Page.callbacks
                  (Page.requests
                     (containerKey (state (this (Page.world p))))
                     (sp :: sps)) pg)
    end.
    rewrite callbacks_requests.
    match goal with
    | |- context [Page.focus_all (sp :: sps) ?pg] =>
        destruct (focus_all_run (sp :: sps) pg Hm) as (w' & Ef & Hs);
        rewrite Ef
    end.
    exists w'. split.
    + destruct p as [w m fo b q]. cbn in Hb, Hq. subst b q. reflexivity.
    + rewrite (Hs Hkeep). unfold Page.committed. cbn. reflexivity.
Qed.

(** C5 (amended).  [restoreEditorDOM(scrollPosition?)] asks React to set
    [containerKey] to its value at the call plus one, with
    [focus(scrollPosition)] as the callback.  Inside a batch the call only
    queues the request: it returns with the world, and so the key, as
    they were.  When a batch in which one call or more were made ends,
    React applies the queue once: the key is the value at the calls plus
    one however many calls there were, the keyed subtree is rebuilt, both
    update hooks have run, and [focus] is invoked once per call, in call
    order, each with the scroll position of its call.  Outside a batch the
    request is applied within the call: the key has risen by exactly one
    on the page [focus] is invoked on, with the same scroll position.  On
    a component that is not mounted the call does nothing.  No other
    operation of the component changes the key, which the constructor
    sets to zero (handler operations being taken to leave [this.state]
    alone): a batch of any operations on a mounted editor raises it by
    one when the batch holds a [restoreEditorDOM] call and not at all
    otherwise, and a sequence of operations made outside a batch raises
    it by the number of [restoreEditorDOM] calls in the sequence.  The
    committed page is the one React reaches by running
    [componentWillUpdate], installing the last state queued, rebuilding
    the subtree under a changed key and running [componentDidUpdate]. *)
Theorem restoreEditorDOM_requests_next_key :
  (forall (scrollPosition : option DraftScrollPosition) (p : Page.t),
      Page.mounted p = true ->
      Page.isBatchingUpdates p = true ->
      Page._restoreEditorDOM scrollPosition p
      = Page.Returns tt
          (Page.set_pending
             (Page.pendingUpdates p
              ++ [ {| Page.partialState :=
                        {| containerKey :=
                             containerKey (state (this (Page.world p)))
                             + 1 |};
                      Page.callback_scrollPosition := scrollPosition |} ])
             p))
  /\ (forall (sp : option DraftScrollPosition)
        (sps : list (option DraftScrollPosition)) (p : Page.t),
        Page.mounted p = true ->
        Page.isBatchingUpdates p = false ->
        Page.pendingUpdates p = [] ->
        exists w',
          Page.focus_all (sp :: sps)
            (Page.committed
               {| containerKey :=
                    containerKey (state (this (Page.world p))) + 1 |}
               (Page.set_batching true p))
          = Page.Returns tt
              (Page.with_world (fun _ => w') (Page.set_batching true p))
          /\ Page.batchedUpdates (Page.restoreEditorDOM_all (sp :: sps)) p
             = Page.Returns tt (Page.with_world (fun _ => w') p)
          /\ (handlers_keep_state ->
              containerKey (state (this w'))
              = containerKey (state (this (Page.world p))) + 1))
  /\ (forall (scrollPosition : option DraftScrollPosition) (p : Page.t),
        Page.mounted p = true ->
        Page.isBatchingUpdates p = false ->
        Page.pendingUpdates p = [] ->
        exists w',
          Page._focus scrollPosition
            (Page.committed
               {| containerKey :=
                    containerKey (state (this (Page.world p))) + 1 |}
               (Page.set_batching true p))
          = Page.Returns tt
              (Page.with_world (fun _ => w') (Page.set_batching true p))
          /\ Page._restoreEditorDOM scrollPosition p
             = Page.Returns tt (Page.with_world (fun _ => w') p)
          /\ (handlers_keep_state ->
              containerKey (state (this w'))
              = containerKey (state (this (Page.world p))) + 1))
  /\ (forall (p : Page.t),
        Page.world
          (Page.committed
             {| containerKey :=
                  containerKey (state (this (Page.world p))) + 1 |} p)
        = {| this :=
               set_blockSelectEvents false
                 (set_state
                    {| containerKey :=
                         containerKey (state (this (Page.world p))) + 1 |}
                    (this (Page.world p)));
             props := props (Page.world p);
             dom := remount (dom (Page.world p));
             calls := calls (Page.world p) |})
  /\ (forall (scrollPosition : option DraftScrollPosition) (p : Page.t),
        Page.mounted p = false ->
        Page._restoreEditorDOM scrollPosition p = Page.Returns tt p)
  /\ (handlers_keep_state ->
      forall (o : Operation) (p : Page.t),
        is_restoreEditorDOM o = false ->
        containerKey
          (state (this (Page.world (Page.page_of (Page.perform o p)))))
        = containerKey (state (this (Page.world p))))
  /\ (forall (given : DraftEditorProps) (d : Dom),
        containerKey (state (this (DraftEditor_constructor given d))) = 0)
  /\ (handlers_keep_state ->
      forall (os : list Operation) (p : Page.t),
        Page.mounted p = true ->
        Page.isBatchingUpdates p = false ->
        Page.pendingUpdates p = [] ->
        exists w',
          Page.batchedUpdates (Page.perform_all os) p
          = Page.Returns tt (Page.with_world (fun _ => w') p)
          /\ containerKey (state (this w'))
             = containerKey (state (this (Page.world p)))
               + (if existsb is_restoreEditorDOM os then 1 else 0))
  /\ (handlers_keep_state ->
      forall (os : list Operation) (p : Page.t),
        Page.mounted p = true ->
        Page.isBatchingUpdates p = false ->
        Page.pendingUpdates p = [] ->
        exists w',
          Page.perform_all os p
          = Page.Returns tt (Page.with_world (fun _ => w') p)
          /\ containerKey (state (this w'))
             = containerKey (state (this (Page.world p)))
               + Z.of_nat (List.length (filter is_restoreEditorDOM os)))
  /\ (forall (p : Page.t) (u : Page.Update) (us : list Page.Update),
        Page.pendingUpdates p = u :: us ->
        Page.flushBatchedUpdates p
        = Page.callbacks (u :: us)
            (Page.committed (Page.partialState (last us u)) p)).
Proof.
  split; [exact restoreEditorDOM_batched | ].
  split; [exact restoreEditorDOM_batch | ].
  split; [exact restoreEditorDOM_unbatched | ].
  split; [exact committed_next_key | ].
  split.
  { intros scrollPosition p Hm.
    unfold Page._restoreEditorDOM, Page.and_then, Page.lift, read.
    rewrite setState_unmounted by exact Hm.
    destruct p; reflexivity. }
  split; [intros Hk o p Ho; apply Page_perform_key; assumption | ].
  split; [reflexivity | ].
  split; [intros Hk os p Hm Hb Hq; apply batch_key; assumption | ].
  split; [ | exact flushBatchedUpdates_run ].
  intros Hk os p Hm Hb Hq.
  destruct (Page_perform_all_unbatched os p Hm Hb Hq) as (w' & Ep & Hkey).
  exists w'. split; [exact Ep | exact (Hkey Hk)].
Qed.

(** ** Repeated focus *)

Lemma editorNode_focus_quiet (p : Page.t) :
  Page.focus_operation p = None ->
  exists answered,
    Page.editorNode_focus p
    = Page.Returns tt (Page.with_world (fun _ => answered) p)
    /\ this answered = this (Page.world p)
    /\ props answered = props (Page.world p)
    /\ calls answered = calls (Page.world p)
    /\ scrollParentIsWindow (dom answered)
       = scrollParentIsWindow (dom (Page.world p))
    /\ (editorNodeFocused (dom (Page.world p)) = true ->
        editorNodeFocused (dom answered) = true).
Proof.
  destruct p as [w m fo b q].
  unfold Page.focus_operation. page_unfold. world_unfold.
  change (listener Attr.onFocus) with (_buildHandler onFocus).
  cbn -[_buildHandler].
  destruct fo; cbn -[_buildHandler];
    [ | intros _; exists w; repeat split; auto ].
  destruct (editorNodeFocused (dom w)) eqn:Ef; cbn -[_buildHandler];
    [ intros _; eexists; split; [reflexivity | repeat split; auto] | ].
  rewrite buildHandler_run. cbn.
  destruct (readOnly (props w)); cbn;
    [ intros _; eexists; split; [reflexivity | repeat split; auto] | ].
  destruct (_handler (this w)) as [ | | o]; cbn;
    try solve [intros _; eexists; split; [reflexivity | repeat split; auto]].
  destruct o as [h | name]; cbn;
    [ | intros _; eexists; split; [reflexivity | repeat split; auto] ].
  destruct (member h onFocus) as [f | ]; cbn;
    [ intros Hsome; discriminate Hsome | ].
  intros _; eexists; split; [reflexivity | repeat split; auto].
Qed.

Lemma focus_times_run (n : nat) (p : Page.t) :
  Page.mounted p = true ->
  exists w',
    Page.focus_times n p
    = Page.Returns tt (Page.with_world (fun _ => w') p)
    /\ y (scrollOffset (dom w')) = y (scrollOffset (dom (Page.world p))).
Proof.
  revert p. induction n as [ | n IH]; intros p Hm.
  - destruct p as [w m fo b q]. exists w. split; reflexivity.
  - cbn [Page.focus_times]. unfold Page.and_then.
    destruct (Page_focus_run None p Hm)
      as (answered & w1 & _ & -> & _ & _ & _ & _ & Hs & _).
    destruct (IH (Page.with_world (fun _ => w1) p) Hm) as (w' & Ea & Hy).
    exists w'. split; [exact Ea | ].
    rewrite Hy. cbn [Page.with_world Page.world]. rewrite Hs.
    destruct (scrollParentIsWindow (dom (Page.world p))); reflexivity.
Qed.

Lemma focus_times_quiet (n : nat) (p : Page.t) :
  Page.mounted p = true ->
  Page.focus_operation p = None ->
  exists w',
    Page.focus_times n p
    = Page.Returns tt (Page.with_world (fun _ => w') p)
    /\ this w' = this (Page.world p)
    /\ props w' = props (Page.world p)
    /\ (scrollParentIsWindow (dom (Page.world p)) = true ->
        scrollOffset (dom w') = scrollOffset (dom (Page.world p)))
    /\ update_calls (calls w')
       = update_calls (calls (Page.world p))
         ++ (if getHasFocus
                  (getSelection (editorState (props (Page.world p))))
             then []
             else repeat
                    (forceSelection (editorState (props (Page.world p)))
                       (getSelection (editorState (props (Page.world p)))))
                    n).
Proof.
  revert p. induction n as [ | n IH]; intros p Hm Hq.
  - destruct p as [w m fo b q]. exists w. cbn.
    repeat split; try reflexivity.
    destruct (getHasFocus _); rewrite app_nil_r; reflexivity.
  - cbn [Page.focus_times repeat]. unfold Page.and_then.
    destruct (Page_focus_run None p Hm)
      as (answered & w1 & En & -> & Ht & Hp & Hf & Hw & Hs & Hc).
    destruct (editorNode_focus_quiet
                (Page.with_world (with_call (call_focus None)) p) Hq)
      as (answered' & En' & Ht' & Hp' & Hc' & Hw' & Hf').
    rewrite En in En'. injection En' as <-.
    cbn [Page.with_world Page.world with_call this props dom calls] in *.
    assert (Page.focus_operation (Page.with_world (fun _ => w1) p) = None)
      as Hq1.
    { revert Hq. unfold Page.focus_operation.
      cbn [Page.with_world Page.world Page.focusable].
      rewrite Ht, Hp, Ht', Hp', Hf.
      destruct (Page.focusable p); [ | reflexivity ].
      destruct (editorNodeFocused (dom (Page.world p))) eqn:Ef.
      - rewrite (Hf' eq_refl). reflexivity.
      - destruct (readOnly (props (Page.world p))); cbn;
          [rewrite andb_false_r; reflexivity | ].
        intros ->. destruct (_ && _); reflexivity. }
    destruct (IH (Page.with_world (fun _ => w1) p) Hm Hq1)
      as (w' & Ea & Ht2 & Hp2 & Hs2 & Hu2).
    cbn [Page.with_world Page.world] in *.
    exists w'. split; [exact Ea | ].
    split; [rewrite Ht2, Ht, Ht'; reflexivity | ].
    split; [rewrite Hp2, Hp, Hp'; reflexivity | ].
    split.
    + intros Hwin. rewrite Hs2 by (rewrite Hw, Hw'; exact Hwin).
      rewrite Hs, Hwin. reflexivity.
    + rewrite Hu2, Hp, Hp', Hc, update_calls_app, Hc', update_calls_app.
      cbn [update_calls flat_map app].
      destruct (getHasFocus
                  (getSelection (editorState (props (Page.world p)))));
        cbn; rewrite ?app_nil_r, <- ?app_assoc; reflexivity.
Qed.

(** X9.  On a mounted editor, calling [focus()] with no scroll position
    any number of times never moves the scroll parent vertically,
    whatever the handlers do when the focus event reaches them: each call
    puts back the vertical offset it read before asking for the focus.
    When no [onFocus] operation is within reach of the request (the node
    cannot take the focus or holds it, the editor is read-only, or the
    active handler has none), the calls also leave the instance fields
    alone, restore the whole offset of a window, and make one [update]
    call each while the selection in the props reports no focus. *)
Theorem repeated_focus_keeps_scroll (n : nat) (p : Page.t) :
  Page.mounted p = true ->
  exists w',
    Page.focus_times n p
    = Page.Returns tt (Page.with_world (fun _ => w') p)
    /\ y (scrollOffset (dom w')) = y (scrollOffset (dom (Page.world p)))
    /\ (Page.focus_operation p = None ->
        this w' = this (Page.world p)
        /\ (scrollParentIsWindow (dom (Page.world p)) = true ->
            scrollOffset (dom w') = scrollOffset (dom (Page.world p)))
        /\ update_calls (calls w')
           = update_calls (calls (Page.world p))
             ++ (if getHasFocus
                      (getSelection (editorState (props (Page.world p))))
                 then []
                 else repeat
                        (forceSelection
                           (editorState (props (Page.world p)))
                           (getSelection
                              (editorState (props (Page.world p)))))
                        n)).
Proof.
  intros Hm.
  destruct (focus_times_run n p Hm) as (w' & Ea & Hy).
  exists w'. split; [exact Ea | ]. split; [exact Hy | ].
  intros Hq.
  destruct (focus_times_quiet n p Hm Hq) as (w2 & Ea2 & Ht & _ & Hs & Hu).
  rewrite Ea in Ea2. injection Ea2 as <-.
  split; [exact Ht | ]. split; [exact Hs | exact Hu].
Qed.

(** X14.  The key of the editor container, ['editor' + containerKey],
    tells remount counters apart: two renders give the same key exactly
    when [containerKey] is the same.  Hence the render React makes when
    it applies a [restoreEditorDOM] request gives a key other than the
    one rendered before the call, so the subtree is rebuilt; and an
    operation that reaches neither React nor the focus of the document
    is followed by the same key. *)
Theorem container_key_changes_on_restoreEditorDOM_only :
  (forall (rp : RenderProps) (w1 w2 : World) (el1 el2 : RootDiv),
      render rp w1 = Normal el1 w1 ->
      render rp w2 = Normal el2 w2 ->
      (container_key el1 = container_key el2
       <-> containerKey (state (this w1)) = containerKey (state (this w2))))
  /\ (forall (rp : RenderProps) (p : Page.t) (el : RootDiv),
        render rp (Page.world p) = Normal el (Page.world p) ->
        exists el',
          render rp
            (Page.world
               (Page.committed
                  {| containerKey :=
                       containerKey (state (this (Page.world p))) + 1 |} p))
          = Normal el'
              (Page.world
                 (Page.committed
                    {| containerKey :=
                         containerKey (state (this (Page.world p))) + 1 |}
                    p))
          /\ container_key el' <> container_key el)
  /\ (forall (rp : RenderProps) (o : Operation) (w : World) (el : RootDiv),
        reaches_platform o = false ->
        render rp w = Normal el w ->
        exists w' el',
          perform o w = Normal tt w'
          /\ render rp w' = Normal el' w'
          /\ container_key el' = container_key el).
Proof.
  assert (forall (rp : RenderProps) (w1 w2 : World) (el1 el2 : RootDiv),
             render rp w1 = Normal el1 w1 ->
             render rp w2 = Normal el2 w2 ->
             (container_key el1 = container_key el2
              <-> containerKey (state (this w1))
                  = containerKey (state (this w2)))) as Hkey.
  { intros rp w1 w2 el1 el2 E1 E2.
    destruct (render_inv rp w1 w1 el1 E1) as (_ & _ & -> & _).
    destruct (render_inv rp w2 w2 el2 E2) as (_ & _ & -> & _).
    split.
    - cbn. intros [= Heq]. apply Number_toString_inj.
      repeat (injection Heq as Heq). exact Heq.
    - intros ->. reflexivity. }
  split; [exact Hkey | ]. split.
  - intros rp p el Er.
    destruct (render_inv rp _ _ el Er)
      as (_ & _ & _ & _ & _ & _ & _ & _ & _ & _ & Hr & Hs).
    destruct (proj1 (render_total rp
                       (Page.world
                          (Page.committed
                             {| containerKey :=
                                  containerKey
                                    (state (this (Page.world p))) + 1 |}
                             p))) _ _ Hr Hs) as (el' & Er').
    exists el'. split; [exact Er' | ].
    rewrite (Hkey rp _ _ el' el Er' Er), committed_next_key. cbn. lia.
  - intros rp o w el Ho Er.
    destruct (render_inv rp w w el Er)
      as (_ & _ & _ & _ & _ & _ & _ & _ & _ & _ & Hr & Hs).
    destruct (perform_key o w) as (w' & Ep & Hk).
    destruct (proj1 (render_total rp w') _ _ Hr Hs) as (el' & Er').
    exists w', el'. split; [exact Ep | ]. split; [exact Er' | ].
    rewrite (Hkey rp w' w el' el Er' Er), Hk.
    destruct o; try discriminate; cbn; lia.
Qed.

End PageProperties.

(** * The statements on the concrete instance *)

#[local] Existing Instance sample_collaborators.
#[local] Existing Instance sample_handlers.

(** Scenario A: from mode ['edit'], [setMode('drag')], two [onDragEnter]
    and one [onDragLeave] leave the drag handler active with the counter
    at one; a second [onDragLeave] brings the counter to zero and makes
    the edit handler active. *)
Example scenario_A :
  exists w1 w2,
    _handler (this sample_mounted)
    = value (handler_module DraftEditorEditHandler)
    /\ (_setMode "drag" ;; drags [DragEnter; DragEnter; DragLeave])
         sample_mounted = Normal tt w1
    /\ _handler (this w1) = value (handler_module DraftEditorDragHandler)
    /\ _dragCount (this w1) = 1
    /\ exit_count (calls w1) = 0%nat
    /\ _onDragLeave w1 = Normal tt w2
    /\ _dragCount (this w2) = 0
    /\ _handler (this w2) = value (handler_module DraftEditorEditHandler)
    /\ exit_count (calls w2) = 1%nat.
Proof. do 2 eexists. repeat split; vm_compute; reflexivity. Qed.

(** Scenario B: the staged payload is read back, and so is [undefined]. *)
Example scenario_B :
  exists w',
    (_setClipboard (value "hello") ;; a <- _getClipboard ;;
     _setClipboard undefined ;; b <- _getClipboard ;; ret (a, b))
      sample_mounted
    = Normal (value "hello", undefined) w'.
Proof. eexists. vm_compute. reflexivity. Qed.

(** C1, as stated, fails: a leave with no matching enter takes the
    counter of a fresh editor to [-1]; it is not clamped at zero. *)
Lemma dragCount_goes_negative :
  exists w',
    _dragCount (this sample_world) = 0
    /\ _onDragLeave sample_world = Normal tt w'
    /\ _dragCount (this w') = -1
    /\ _dragCount (this w') < 0.
Proof. eexists. repeat split; vm_compute; reflexivity. Qed.

(** C3, as stated for all sequences, fails: after an unmatched leave the
    balanced block [enter; leave] returns the counter to [-1], not to
    zero, and [exitCurrentMode] is not called for it. *)
Lemma no_exit_for_block_after_unmatched_leave :
  exists w',
    _dragCount (this sample_world) = 0
    /\ drags [DragLeave; DragEnter; DragLeave] sample_world = Normal tt w'
    /\ block [DragEnter; DragLeave]
    /\ balanced_blocks [DragLeave; DragEnter; DragLeave] = 1%nat
    /\ exit_count (calls w') = 0%nat
    /\ drag_counts [DragLeave; DragEnter; DragLeave] sample_world
       = [-1; 0; -1].
Proof.
  eexists. repeat split; try (vm_compute; reflexivity).
  exists []. split; [constructor | reflexivity].
Qed.

(** C7, as stated, fails: with an element as scroll parent at offset
    [(5, 10)], [focus({x: 0, y: 120})] leaves it at [(5, 120)]: the
    horizontal offset is not the resolved one.  The same holds when the
    call comes from [restoreEditorDOM({x: 0, y: 120})]. *)
Lemma focus_leaves_horizontal_offset_of_element :
  exists w' w'',
    scrollParentIsWindow (dom sample_world) = false
    /\ scrollOffset (dom sample_world) = {| x := 5; y := 10 |}
    /\ _focus (Some {| x := 0; y := 120 |}) sample_world = Normal tt w'
    /\ resolved_offset (Some {| x := 0; y := 120 |}) (dom sample_world)
       = {| x := 0; y := 120 |}
    /\ scrollOffset (dom w') = {| x := 5; y := 120 |}
    /\ _restoreEditorDOM (Some {| x := 0; y := 120 |}) sample_world
       = Normal tt w''
    /\ scrollOffset (dom w'') = {| x := 5; y := 120 |}.
Proof. do 2 eexists. repeat split; vm_compute; reflexivity. Qed.

(** C9, as stated, fails: [setMode('paste')], with a mode outside the
    closed set, returns normally and leaves [_handler] undefined. *)
Lemma unknown_mode_returns_normally :
  exists w',
    ~ In "paste" DraftEditorModes
    /\ _setMode "paste" sample_mounted = Normal tt w'
    /\ _handler (this w') = undefined
    /\ _buildHandler onCopy (sample_event "text") w' = Normal tt w'.
Proof.
  eexists. split; [ | repeat split; vm_compute; reflexivity ].
  cbv. intuition discriminate.
Qed.

(** The dispatch theorem at the mounted sample editor: a read-only editor
    does not run the throwing [onPaste] operation; [onCopy] runs the edit
    handler's operation with the editor as receiver, which stages the
    event; [onKeyDown], which the edit handler lacks, is ignored. *)
Lemma buildHandler_dispatch_witness :
  (readOnly (props sample_readOnly) = true
   /\ _buildHandler onPaste (sample_event "v") sample_readOnly = Normal tt sample_readOnly)
  /\ (readOnly (props sample_mounted) = false
      /\ _buildHandler onCopy (sample_event "hello") sample_mounted
         = sample_onCopy the_editor (sample_event "hello") sample_mounted
      /\ _clipboard
           (this (world_of (_buildHandler onCopy (sample_event "hello") sample_mounted)))
         = value "hello")
  /\ (member DraftEditorEditHandler onKeyDown = None
      /\ _buildHandler onKeyDown (sample_event "k") sample_mounted
         = Normal tt sample_mounted).
Proof.
  split; [ | split ].
  - split; [reflexivity | ].
    apply (proj1 (buildHandler_dispatch onPaste (sample_event "v") sample_readOnly)).
    reflexivity.
  - split; [reflexivity | ].
    assert (_buildHandler onCopy (sample_event "hello") sample_mounted
            = sample_onCopy the_editor (sample_event "hello") sample_mounted) as E.
    { apply (proj1 (proj2
               (buildHandler_dispatch onCopy (sample_event "hello") sample_mounted))
               eq_refl DraftEditorEditHandler sample_onCopy);
        reflexivity. }
    split; [exact E | ]. rewrite E. reflexivity.
  - split; [reflexivity | ].
    apply (proj2 (proj2
             (buildHandler_dispatch onKeyDown (sample_event "k") sample_mounted))
             eq_refl).
    right; right. exists (handler_module DraftEditorEditHandler).
    split; reflexivity.
Defined.

(** The unknown-mode theorem at ['paste']. *)
Lemma setMode_unknown_mode_witness :
  ~ In "paste" DraftEditorModes
  /\ exists w',
       _setMode "paste" sample_mounted = Normal tt w'
       /\ _handler (this w') = undefined
       /\ _buildHandler onCopy (sample_event "text") w' = Normal tt w'.
Proof.
  assert (~ In "paste" DraftEditorModes) as Hout
    by (cbv; intuition discriminate).
  split; [exact Hout | ].
  destruct (setMode_unknown_mode "paste" sample_mounted Hout)
    as (w' & E & Hh & _ & _ & Hd).
  exists w'. split; [exact E | ]. split; [ | apply Hd ].
  rewrite Hh. reflexivity.
Defined.

(** The block theorem on Scenario A's calls: two enters and two leaves
    make one balanced block; the second leave completes it and
    [exitCurrentMode] is called once. *)
Lemma exit_once_per_balanced_block_witness :
  _dragCount (this sample_dragging) = 0
  /\ well_nested [DragEnter; DragEnter; DragLeave; DragLeave] = true
  /\ completes_block ([DragEnter; DragEnter; DragLeave] ++ [DragLeave])
  /\ exists w',
       drags [DragEnter; DragEnter; DragLeave; DragLeave] sample_dragging
       = Normal tt w'
       /\ _handler (this w') = value (handler_module DraftEditorEditHandler)
       /\ exit_count (calls w')
          = (exit_count (calls sample_dragging) + 1)%nat.
Proof.
  destruct exit_once_per_balanced_block as (Hcall & _ & Hnested & _).
  assert (completes_block ([DragEnter; DragEnter; DragLeave] ++ [DragLeave]))
    as Hblock.
  { exists [], [DragEnter; DragEnter; DragLeave; DragLeave].
    repeat split. exists [DragEnter; DragLeave].
    split; [ | reflexivity ].
    apply (balanced_nest [] balanced_nil). }
  split; [reflexivity | ]. split; [reflexivity | ].
  split; [exact Hblock | ].
  destruct (Hnested [DragEnter; DragEnter; DragLeave; DragLeave]
              sample_dragging eq_refl eq_refl)
    as (w' & bs & r & E & _ & _ & _ & Hn & Hx).
  destruct (Hcall [DragEnter; DragEnter; DragLeave] DragLeave
              sample_dragging eq_refl)
    as (w1 & w2 & _ & _ & E2 & Hfire & _).
  cbn [app] in E2. rewrite E in E2. injection E2 as <-.
  exists w'. split; [exact E | ].
  split; [exact (proj2 (Hfire Hblock)) | ].
  rewrite Hx, <- Hn. reflexivity.
Defined.

(** The drag-counter theorem on an enter followed by a leave: the counter
    is back at zero, never negative, and the exit fired once. *)
Lemma dragCount_is_net_and_exits_once_witness :
  _dragCount (this sample_dragging) = 0
  /\ well_nested [DragEnter; DragLeave] = true
  /\ Forall (fun n => 0 <= n)
       (drag_counts [DragEnter; DragLeave] sample_dragging)
  /\ exists w',
       drags [DragEnter; DragLeave] sample_dragging = Normal tt w'
       /\ _dragCount (this w') = 0.
Proof.
  destruct dragCount_is_net_and_exits_once as (Hrun & Hnested & _).
  split; [reflexivity | ]. split; [reflexivity | ].
  split.
  - apply (Hnested [DragEnter; DragLeave] sample_dragging eq_refl).
    reflexivity.
  - destruct (Hrun [DragEnter; DragLeave] sample_dragging)
      as (w' & E & Hn & _).
    exists w'. split; [exact E | ]. rewrite Hn. reflexivity.
Defined.

(** The scroll theorem at the window: an explicit position is restored
    in both components. *)
Lemma focus_restores_scroll_witness :
  scrollParentIsWindow (dom sample_in_window) = true
  /\ exists w',
       _focus (Some {| x := 0; y := 120 |}) sample_in_window = Normal tt w'
       /\ scrollOffset (dom w') = {| x := 0; y := 120 |}.
Proof.
  split; [reflexivity | ].
  destruct (focus_restores_scroll (Some {| x := 0; y := 120 |})
              sample_in_window) as (w' & E & _ & Hw).
  exists w'. split; [exact E | ]. apply Hw. reflexivity.
Defined.

(** Scenario C: the selection reports no focus; [focus()] makes exactly
    one [update] call, with the forced selection, and with the window as
    scroll parent the offset is the one before the call although the
    browser scrolled to the top. *)
Example scenario_C :
  exists w',
    getHasFocus (getSelection (editorState (props sample_in_window)))
    = false
    /\ _focus None sample_in_window = Normal tt w'
    /\ update_calls (calls w')
       = [ forceSelection (editorState (props sample_in_window))
             (getSelection (editorState (props sample_in_window))) ]
    /\ scrollOnFocus (dom sample_in_window) = {| x := 3; y := 0 |}
    /\ scrollOffset (dom w') = scrollOffset (dom sample_in_window).
Proof.
  eexists. repeat (split; [vm_compute; reflexivity | ]).
  vm_compute; reflexivity.
Qed.

(** Scenario D: [restoreEditorDOM({x: 0, y: 120})] raises the key by one,
    then calls [focus] with the same position; with the window as scroll
    parent the offset ends at [(0, 120)]. *)
Example scenario_D :
  exists w',
    _restoreEditorDOM (Some {| x := 0; y := 120 |}) sample_in_window
    = Normal tt w'
    /\ containerKey (state (this w'))
       = containerKey (state (this sample_in_window)) + 1
    /\ calls w'
       = calls sample_in_window
         ++ [ call_focus (Some {| x := 0; y := 120 |});
              call_update (false, 1%nat); call_onChange (false, 1%nat) ]
    /\ scrollOffset (dom w') = {| x := 0; y := 120 |}.
Proof. eexists. repeat split; vm_compute; reflexivity. Qed.

(** * The further statements on the concrete instance *)

#[local] Existing Instance sample_rendering.




(** X11 on the mounted read-only sample: the throwing [onPaste] of the
    edit handler is not run, and a drag enter and leave still count. *)
Lemma readOnly_gates_all_but_drag_witness :
  exists el,
    render (with_defaultProps sample_renderProps) sample_readOnly
    = Normal el sample_readOnly
    /\ readOnly (props sample_readOnly) = true
    /\ contentEditable (content el) = false
    /\ role_attribute (content el) = null
    /\ listeners (content el) Attr.onPaste (sample_event "v") sample_readOnly
       = Normal tt sample_readOnly
    /\ exists w1,
         listeners (content el) Attr.onDragEnter (sample_event "d")
           sample_readOnly = Normal tt w1
         /\ _dragCount (this w1) = 1.
Proof.
  eexists.
  match goal with
  | |- render ?rp ?w = Normal ?el ?w /\ _ =>
      assert (render rp w = Normal el w) as E by (vm_compute; reflexivity);
      destruct (readOnly_gates_all_but_drag rp w el eq_refl E)
        as (Hce & Hrole & _ & _ & _ & _ & _ & Hquiet & Hdrag)
  end.
  split; [exact E | ]. split; [reflexivity | ].
  split; [exact Hce | ]. split; [exact Hrole | ].
  split; [apply Hquiet; discriminate | ].
  destruct (Hdrag (sample_event "d") (sample_event "d"))
    as (w1 & w2 & E1 & Hn1 & _).
  exists w1. split; [exact E1 | exact Hn1].
Defined.

(** X12 on the mounted sample, whose content is empty: the placeholder
    element and the title both carry the placeholder text. *)
Lemma placeholder_and_title_witness :
  exists el shown,
    render (with_defaultProps sample_renderProps) sample_mounted
    = Normal el sample_mounted
    /\ root_placeholder el = Some shown
    /\ placeholder (with_defaultProps sample_renderProps)
       = value (placeholder_text shown)
    /\ title (content el) = value (placeholder_text shown).
Proof.
  eexists. eexists.
  match goal with
  | |- render ?rp ?w = Normal ?el ?w /\ _ =>
      assert (render rp w = Normal el w) as E by (vm_compute; reflexivity);
      destruct (placeholder_and_title rp w el E) as (Hshown & _)
  end.
  split; [exact E | ]. split; [reflexivity | ].
  match goal with
  | |- _ = value (placeholder_text ?shown) /\ _ =>
      destruct (Hshown shown eq_refl) as (Hph & _ & Ht & _)
  end.
  split; [exact Hph | exact Ht].
Defined.

(** X13 on the mounted sample, which passes no [role]. *)
Lemma editable_role_defaults_to_textbox_witness :
  exists el,
    render (with_defaultProps sample_renderProps) sample_mounted
    = Normal el sample_mounted
    /\ readOnly (props sample_mounted) = false
    /\ contentEditable (content el) = true
    /\ role_attribute (content el) = value "textbox".
Proof.
  eexists.
  match goal with
  | |- render ?rp ?w = Normal ?el ?w /\ _ =>
      assert (render rp w = Normal el w) as E by (vm_compute; reflexivity);
      destruct (editable_role_defaults_to_textbox rp w el eq_refl E)
        as (Hce & s & Hrole & _)
  end.
  split; [exact E | ]. split; [reflexivity | ].
  split; [exact Hce | reflexivity].
Defined.

(** X15 on the sample: the edit handler's throwing [onMouseDown] changes
    nothing about what the listeners do. *)
Lemma listeners_never_reach_onMouseDown_onCharacterData_witness :
  @member sample_collaborators sample_handlers_onMouseDown
    DraftEditorEditHandler onMouseDown = Some sample_onPaste
  /\ @member sample_collaborators sample_handlers
       DraftEditorEditHandler onMouseDown = None
  /\ @listener sample_collaborators sample_handlers Attr.onMouseUp
       (sample_event "m") sample_mounted
     = @listener sample_collaborators sample_handlers_onMouseDown
         Attr.onMouseUp (sample_event "m") sample_mounted.
Proof.
  split; [reflexivity | ]. split; [reflexivity | ].
  apply (listeners_never_reach_onMouseDown_onCharacterData
           sample_handlers sample_handlers_onMouseDown).
  intros h eventName Hmd Hcd.
  destruct h, eventName; try reflexivity; exfalso; apply Hmd; reflexivity.
Defined.

(** * The statements on a concrete page *)

#[local] Existing Instance sample_events.

Lemma sample_handlers_keep_state :
  @handlers_keep_state sample_collaborators sample_handlers.
Proof.
  intros h eventName f Hf r e w.
  destruct h, eventName; try discriminate Hf;
    injection Hf as <-; reflexivity.
Qed.

(** C5, as stated, fails: inside a batch a call to [restoreEditorDOM()]
    returns with the key where it was, and two calls made in one batch
    raise the key of a mounted editor from [0] to [1], not to [2]; [focus]
    is still invoked twice. *)
Lemma batched_restoreEditorDOM_raises_key_once :
  exists queued p',
    containerKey (state (this sample_mounted)) = 0
    /\ Page._restoreEditorDOM None
         (Page.set_batching true (sample_page sample_mounted))
       = Page.Returns tt queued
    /\ containerKey (state (this (Page.world queued))) = 0
    /\ Page.batchedUpdates (Page.restoreEditorDOM_all [None; None])
         (sample_page sample_mounted)
       = Page.Returns tt p'
    /\ containerKey (state (this (Page.world p'))) = 1
    /\ filter (fun c => match c with call_focus _ => true | _ => false end)
         (calls (Page.world p'))
       = [call_focus None; call_focus None].
Proof.
  do 2 eexists. repeat (split; [vm_compute; reflexivity | ]).
  vm_compute; reflexivity.
Qed.

(** The amended C5 on the mounted sample: outside a batch one call takes
    the key from [0] to [1]; a batch of three calls does the same. *)
Lemma restoreEditorDOM_requests_next_key_witness :
  exists w1 w3,
    Page._restoreEditorDOM (Some {| x := 0; y := 120 |})
      (sample_page sample_mounted)
    = Page.Returns tt
        (Page.with_world (fun _ => w1) (sample_page sample_mounted))
    /\ containerKey (state (this w1)) = 1
    /\ Page.batchedUpdates
         (Page.restoreEditorDOM_all [None; None; None])
         (sample_page sample_mounted)
       = Page.Returns tt
           (Page.with_world (fun _ => w3) (sample_page sample_mounted))
    /\ containerKey (state (this w3)) = 1.
Proof.
  destruct restoreEditorDOM_requests_next_key
    as (_ & Hbatch & Hcall & _).
  destruct (Hcall (Some {| x := 0; y := 120 |}) (sample_page sample_mounted)
              eq_refl eq_refl eq_refl) as (w1 & _ & E1 & Hk1).
  destruct (Hbatch None [None; None] (sample_page sample_mounted)
              eq_refl eq_refl eq_refl) as (w3 & _ & E3 & Hk3).
  exists w1, w3.
  split; [exact E1 | ].
  split; [exact (Hk1 sample_handlers_keep_state) | ].
  split; [exact E3 | exact (Hk3 sample_handlers_keep_state)].
Defined.



(** X3 on the sample: after [componentWillUpdate], a clipboard write and
    a mode change do not unblock selection events. *)
Lemma select_events_blocked_during_update_witness :
  Forall (fun o => reaches_platform o = false)
    ([@op_componentDidUpdate sample_collaborators]
     ++ [ op_setClipboard (sample_payload "x");
          @op_setMode sample_collaborators "composite" ])
  /\ update_hook (@op_componentWillUpdate sample_collaborators) = Some true
  /\ Forall (fun o => update_hook o = None)
       [ op_setClipboard (sample_payload "x");
         @op_setMode sample_collaborators "composite" ]
  /\ exists w',
       perform_all
         ([@op_componentDidUpdate sample_collaborators]
          ++ op_componentWillUpdate
               :: [ op_setClipboard (sample_payload "x");
                    op_setMode "composite" ])
         sample_mounted = Normal tt w'
       /\ _blockSelectEvents (this w') = true.
Proof.
  assert (Forall (fun o => reaches_platform o = false)
            ([@op_componentDidUpdate sample_collaborators]
             ++ [ op_setClipboard (sample_payload "x");
                  @op_setMode sample_collaborators "composite" ])) as Hplain
    by (repeat constructor).
  assert (Forall (fun o => update_hook o = None)
            [ op_setClipboard (sample_payload "x");
              @op_setMode sample_collaborators "composite" ]) as Hno
    by (repeat constructor).
  split; [exact Hplain | ]. split; [reflexivity | ]. split; [exact Hno | ].
  apply (select_events_blocked_during_update
           [@op_componentDidUpdate sample_collaborators] _
           op_componentWillUpdate true sample_mounted Hplain eq_refl Hno).
Defined.

(** X5 on the sample: of a mount, a mode change, two [update] calls and an
    unmatched drag leave, only the two [update] operations reach
    [props.onChange]. *)
Lemma onChange_once_per_update_witness :
  Forall (fun o => reaches_platform o = false)
    [ @op_componentDidMount sample_collaborators;
      op_setMode "drag";
      @op_update sample_collaborators (true, 1%nat);
      op_onDragLeave;
      @op_update sample_collaborators (false, 2%nat) ]
  /\ exists w',
       perform_all
         [ @op_componentDidMount sample_collaborators;
           op_setMode "drag";
           @op_update sample_collaborators (true, 1%nat);
           op_onDragLeave;
           @op_update sample_collaborators (false, 2%nat) ]
         sample_world = Normal tt w'
       /\ update_calls (calls w') = [ (true, 1%nat); (false, 2%nat) ]
       /\ onChange_calls (calls w') = [ (true, 1%nat); (false, 2%nat) ].
Proof.
  assert (Forall (fun o => reaches_platform o = false)
            [ @op_componentDidMount sample_collaborators;
              op_setMode "drag";
              @op_update sample_collaborators (true, 1%nat);
              op_onDragLeave;
              @op_update sample_collaborators (false, 2%nat) ]) as Hplain
    by (repeat constructor).
  split; [exact Hplain | ].
  destruct (onChange_once_per_update _ sample_world Hplain)
    as (w' & Ep & _ & Hu & Hn & _).
  exists w'. split; [exact Ep | ]. split; [exact Hu | exact Hn].
Defined.

(** X9 on the sample with the onFocus handler: three calls of [focus()]
    leave the element's vertical offset at [10]. *)
Lemma repeated_focus_keeps_scroll_witness :
  Page.mounted (sample_page sample_mounted) = true
  /\ exists w',
       @Page.focus_times sample_collaborators sample_handlers_onFocus
         sample_events 3 (sample_page sample_mounted)
       = Page.Returns tt
           (Page.with_world (fun _ => w') (sample_page sample_mounted))
       /\ y (scrollOffset (dom w')) = 10.
Proof.
  split; [reflexivity | ].
  destruct (@repeated_focus_keeps_scroll sample_collaborators
              sample_handlers_onFocus sample_events 3
              (sample_page sample_mounted) eq_refl)
    as (w' & Ef & Hy & _).
  exists w'. split; [exact Ef | exact Hy].
Defined.

(** X14 on the mounted sample: the key goes from ['editor0'] to
    ['editor1'] when React applies a [restoreEditorDOM] request and stays
    on [setMode]. *)
Lemma container_key_changes_on_restoreEditorDOM_only_witness :
  exists el el' w'' el'',
    render (with_defaultProps sample_renderProps) sample_mounted
    = Normal el sample_mounted
    /\ container_key el = "editor0"
    /\ render (with_defaultProps sample_renderProps)
         (Page.world
            (Page.committed {| containerKey := 0 + 1 |}
               (sample_page sample_mounted)))
       = Normal el'
           (Page.world
              (Page.committed {| containerKey := 0 + 1 |}
                 (sample_page sample_mounted)))
    /\ container_key el' = "editor1"
    /\ container_key el' <> container_key el
    /\ perform (op_setMode "cut") sample_mounted = Normal tt w''
    /\ render (with_defaultProps sample_renderProps) w'' = Normal el'' w''
    /\ container_key el'' = container_key el.
Proof.
  destruct (@container_key_changes_on_restoreEditorDOM_only
              sample_collaborators sample_handlers sample_rendering)
    as (_ & Hcommit & Hop).
  eexists.
  match goal with
  | |- exists el' w'' el'', render ?rp ?w = Normal ?el ?w /\ _ =>
      assert (render rp w = Normal el w) as Er by (vm_compute; reflexivity);
      destruct (Hcommit rp (sample_page sample_mounted) el Er)
        as (el' & Er' & Hk);
      destruct (Hop rp (op_setMode "cut") w el eq_refl Er)
        as (w'' & el'' & Ep' & Er'' & Hk')
  end.
  exists el', w'', el''.
  split; [exact Er | ]. split; [reflexivity | ].
  split; [exact Er' | ].
  assert (container_key el' = "editor1") as Hone.
  { vm_compute in Er'. injection Er' as <-. reflexivity. }
  split; [exact Hone | ]. split; [exact Hk | ].
  split; [exact Ep' | ]. split; [exact Er'' | exact Hk'].
Defined.
